(** * ibis_mssql.compiler: the SQL Server dialect adapter, embedded in Rocq

    The development follows [src/ibis_mssql/compiler.py] top to bottom:
    Python values and exceptions, the expression trees and SQLAlchemy
    clause elements the rules work on, the translation rules, the module
    level tables (built in a store of dict objects, since Python dicts are
    shared and mutated in place), and the two utility functions
    [_find_params] and [to_sql].  Theorems come after all definitions. *)

From Stdlib Require Import ZArith QArith Ascii String.
From stdpp Require Import gmap strings list fin_maps.

Open Scope string_scope.

Set Warnings "-register-all".

(** ** Python values, exceptions and the two effect monads *)

(** The exceptions the module can raise or let through. *)
Inductive exn : Type :=
| UnsupportedOperationError (msg : string)
| TypeError (msg : string)
| ValueError (msg : string)
| AttributeError (msg : string)
| NameError (name : string)
| HostError (msg : string).

(** Outcome of a Python call: an exception or a value. *)
Inductive result (A : Type) : Type :=
| Raise (e : exn)
| Return (a : A).
Arguments Raise {A} e.
Arguments Return {A} a.

#[global] Instance result_ret : MRet result := fun A a => Return a.
#[global] Instance result_bind : MBind result :=
  fun A B k m => match m with Raise e => Raise e | Return a => k a end.

(** A call that may also touch mutable state of type [St]: exceptions
    propagate and keep the state reached when they were raised. *)
Definition M (St A : Type) : Type := St -> result A * St.

#[global] Instance M_ret {St} : MRet (M St) := fun A a s => (Return a, s).
#[global] Instance M_bind {St} : MBind (M St) :=
  fun A B k m s =>
    match m s with
    | (Return a, s') => k a s'
    | (Raise e, s') => (Raise e, s')
    end.

Definition raise {St A} (e : exn) : M St A := fun s => (Raise e, s).

(** Python numbers.  A float is carried by the rational it denotes (every
    finite float is one; NaN and the infinities are not carried); [bool] is
    a subclass of [int]. *)
Inductive PyNum : Type :=
| NInt (z : Z)
| NBool (b : bool)
| NFloat (q : Q).

Definition num_value (n : PyNum) : Q :=
  match n with
  | NInt z => inject_Z z
  | NBool b => if b then 1%Q else 0%Q
  | NFloat q => q
  end.

(** [a == b] on numbers compares values across int, bool and float. *)
Definition num_eq (a b : PyNum) : bool := Qeq_bool (num_value a) (num_value b).

(** Classes are identified by their names. *)
Abbreviation OpKind := string (only parsing).
Abbreviation TypeClass := string (only parsing).

(** ibis data types: an instance of a type class, with its [nullable] slot. *)
Record DataType : Type := { type_class : TypeClass; nullable : bool }.

#[global] Instance DataType_eq_dec : EqDecision DataType.
Proof. solve_decision. Defined.

(** [sa.func.<name>]: the generator of the SQL function called [name]. *)
Record SaFunction : Type := { fn_name : string }.

(** ** ibis expression trees

    An expression wraps an operation node ([expr.op()]) and has a type
    ([expr.type()]); a node has a class ([type(op)]) and arguments
    ([op.args]), which are arbitrary Python objects. *)
Inductive PyObj : Type :=
| PNone
| PNum (n : PyNum)
| PStr (s : string)
| PSaFunc (f : SaFunction)
| PType (ty : DataType)
| PExpr (e : Expr)
with Expr : Type :=
| MkExpr (node : Node) (ty : DataType)
with Node : Type :=
| MkNode (cls : OpKind) (node_args : list PyObj).

Definition op (e : Expr) : Node := match e with MkExpr n _ => n end.
Definition type (e : Expr) : DataType := match e with MkExpr _ ty => ty end.
Definition type_of (n : Node) : OpKind := match n with MkNode c _ => c end.
Definition args (n : Node) : list PyObj := match n with MkNode _ a => a end.

(** ** SQLAlchemy clause elements *)

Inductive ColType : Type :=
| SQL_BIT | TINYINT | SMALLINT | INTEGER | BIGINT | REAL | VARCHAR
| HostColType (name : string).

Inductive SaExpr : Type :=
| SaColumn (name : string)
| SaBindParam (value : PyObj)
| SaLiteralColumn (text : string)
| SaNull
| SaCall (name : string) (sa_args : list SaExpr)
| SaBinary (operator : string) (left right : SaExpr)
| SaCast (e : SaExpr) (ty : ColType).

Module sa.
Definition func (name : string) : SaFunction := {| fn_name := name |}.
Definition literal_column (text : string) : SaExpr := SaLiteralColumn text.
Definition cast (e : SaExpr) (ty : ColType) : SaExpr := SaCast e ty.
(** Calling a function generator on translated arguments. *)
Definition call (f : SaFunction) (sa_args : list SaExpr) : SaExpr :=
  SaCall (fn_name f) sa_args.
(** [e + n], [e - n]: the Python number becomes a bind parameter. *)
Definition add (e : SaExpr) (n : Z) : SaExpr := SaBinary "+" e (SaBindParam (PNum (NInt n))).
Definition sub (e : SaExpr) (n : Z) : SaExpr := SaBinary "-" e (SaBindParam (PNum (NInt n))).
Definition truediv (l r : SaExpr) : SaExpr := SaBinary "/" l r.
(** [getattr(sa.func, name)]: the builtin insists on a string name.  A
    name is taken as it is, which is what SQLAlchemy does with each name
    the module passes (max, min, sum, avg). *)
Definition getattr_func (name : PyObj) : result SaFunction :=
  match name with
  | PStr s => Return (func s)
  | _ => Raise (TypeError "getattr(): attribute name must be string")
  end.
End sa.

(** ** The translator and its rules *)

(** The host translator object, as far as a rule uses it: [t.translate]. *)
Record Translator (St : Type) : Type := { translate : PyObj -> M St SaExpr }.
Arguments translate {St} t obj.

(** A registry value: a function called as [rule(t, expr)]. *)
Definition Rule (St : Type) : Type := Translator St -> Expr -> M St SaExpr.

(** What the module imports from the host framework and calls:
    [Expr.cast], [Expr.ifelse], and the rule builders [unary] and
    [fixed_arity] of [ibis.sql.alchemy]. *)
Class AlchemyHost (St : Type) : Type := {
  cast : Expr -> string -> Expr;
  ifelse : Expr -> PyObj -> PyObj -> Expr;
  unary : SaFunction -> Rule St;
  fixed_arity : SaFunction -> nat -> Rule St;
}.

Module dt.
Definition Boolean : TypeClass := "Boolean".
Definition Int8 : TypeClass := "Int8".
Definition Int32 : TypeClass := "Int32".
Definition Int64 : TypeClass := "Int64".
Definition Float : TypeClass := "Float".
Definition Double : TypeClass := "Double".
Definition String : TypeClass := "String".
(** The instance [dt.boolean]. *)
Definition boolean : DataType := {| type_class := Boolean; nullable := true |}.
Definition equals (a b : DataType) : bool := bool_decide (a = b).
End dt.

Module ops.
Definition Count : OpKind := "Count".
Definition Max : OpKind := "Max".
Definition Min : OpKind := "Min".
Definition Sum : OpKind := "Sum".
Definition Mean : OpKind := "Mean".
Definition LStrip : OpKind := "LStrip".
Definition Lowercase : OpKind := "Lowercase".
Definition RStrip : OpKind := "RStrip".
Definition Repeat : OpKind := "Repeat".
Definition Reverse : OpKind := "Reverse".
Definition StringFind : OpKind := "StringFind".
Definition StringLength : OpKind := "StringLength".
Definition StringReplace : OpKind := "StringReplace".
Definition Strip : OpKind := "Strip".
Definition Substring : OpKind := "Substring".
Definition Uppercase : OpKind := "Uppercase".
Definition Abs : OpKind := "Abs".
Definition Acos : OpKind := "Acos".
Definition Asin : OpKind := "Asin".
Definition Atan2 : OpKind := "Atan2".
Definition Atan : OpKind := "Atan".
Definition Ceil : OpKind := "Ceil".
Definition Cos : OpKind := "Cos".
Definition Floor : OpKind := "Floor".
Definition FloorDivide : OpKind := "FloorDivide".
Definition Power : OpKind := "Power".
Definition Sign : OpKind := "Sign".
Definition Sin : OpKind := "Sin".
Definition Sqrt : OpKind := "Sqrt".
Definition Tan : OpKind := "Tan".
Definition TimestampNow : OpKind := "TimestampNow".
Definition ExtractYear : OpKind := "ExtractYear".
Definition ExtractMonth : OpKind := "ExtractMonth".
Definition ExtractDay : OpKind := "ExtractDay".
Definition ExtractHour : OpKind := "ExtractHour".
Definition ExtractMinute : OpKind := "ExtractMinute".
Definition ExtractSecond : OpKind := "ExtractSecond".
Definition ExtractMillisecond : OpKind := "ExtractMillisecond".
Definition NotContains : OpKind := "NotContains".
Definition NullIf : OpKind := "NullIf".
Definition NotAny : OpKind := "NotAny".
Definition Least : OpKind := "Least".
Definition Greatest : OpKind := "Greatest".
Definition Round : OpKind := "Round".
Definition Log2 : OpKind := "Log2".
Definition Ln : OpKind := "Ln".
Definition Log10 : OpKind := "Log10".
Definition Log : OpKind := "Log".
Definition Exp : OpKind := "Exp".
Definition Modulus : OpKind := "Modulus".
Definition Contains : OpKind := "Contains".
Definition LPad : OpKind := "LPad".
Definition RPad : OpKind := "RPad".
Definition Capitalize : OpKind := "Capitalize".
Definition RegexSearch : OpKind := "RegexSearch".
Definition RegexExtract : OpKind := "RegexExtract".
Definition RegexReplace : OpKind := "RegexReplace".
Definition StringAscii : OpKind := "StringAscii".
Definition StringSQLLike : OpKind := "StringSQLLike".
Definition CumulativeMax : OpKind := "CumulativeMax".
Definition CumulativeMin : OpKind := "CumulativeMin".
Definition CumulativeMean : OpKind := "CumulativeMean".
Definition CumulativeSum : OpKind := "CumulativeSum".
Definition TimestampTruncate : OpKind := "TimestampTruncate".
End ops.

(** [template.format(x)] for a template with one [{}] field. *)
Fixpoint format (template x : string) : string :=
  match template with
  | String "{"%char (String "}"%char rest) => x ++ rest
  | String c rest => String c (format rest x)
  | EmptyString => EmptyString
  end.

(** [str(cls)] for an operation class of [ibis.expr.operations]. *)
Definition class_str (cls : OpKind) : string :=
  "<class 'ibis.expr.operations." ++ cls ++ "'>".

(** Tuple unpacking of [op.args]: a wrong length raises [ValueError]. *)
Definition unpack_error {A} : result A := Raise (ValueError "wrong number of values to unpack").

Definition unpack1 (l : list PyObj) : result PyObj :=
  match l with [a] => Return a | _ => unpack_error end.
Definition unpack2 (l : list PyObj) : result (PyObj * PyObj) :=
  match l with [a; b] => Return (a, b) | _ => unpack_error end.
Definition unpack3 (l : list PyObj) : result (PyObj * PyObj * PyObj) :=
  match l with [a; b; c] => Return (a, b, c) | _ => unpack_error end.
Definition unpack4 (l : list PyObj) : result (PyObj * PyObj * PyObj * PyObj) :=
  match l with [a; b; c; d] => Return (a, b, c, d) | _ => unpack_error end.

(** A pure outcome used inside a stateful call. *)
Definition lift {St A} (r : result A) : M St A := fun s => (r, s).

Section Rules.
Context {St : Type} `{!AlchemyHost St}.

(** compiler.py, lines 14-17. *)
Definition raise_unsupported_op_error
    (translator : Translator St) (expr : Expr) (extra : list PyObj) : M St SaExpr :=
  let msg := "SQLServer backend doesn't support {} operation!" in
  let op := op expr in
  raise (UnsupportedOperationError (format msg (class_str (type_of op)))).

(** [arg.type()] and [where.ifelse(...)] are method calls on expressions:
    any other receiver has no such attribute. *)
Definition method_receiver (o : PyObj) (method : string) : result Expr :=
  match o with
  | PExpr e => Return e
  | _ => Raise (AttributeError method)
  end.

(** compiler.py, lines 23-36. *)
Definition _reduction (func_name : PyObj) (cast_type : string) : Rule St :=
  fun t expr =>
    '(arg, where_) ← lift (unpack2 (args (op expr)));
    arg_e ← lift (method_receiver arg "type");
    let arg :=
      if dt.equals (type arg_e) dt.boolean then PExpr (cast arg_e cast_type) else arg in
    func ← lift (sa.getattr_func func_name);
    arg ← match where_ with
          | PNone => mret arg
          | _ => where_e ← lift (method_receiver where_ "ifelse");
                 mret (PExpr (ifelse where_e arg PNone))
          end;
    sa_arg ← translate t arg;
    mret (sa.call func [sa_arg]).

(** The default [cast_type='int32']. *)
Definition _reduction_default (func_name : PyObj) : Rule St :=
  _reduction func_name "int32".

(** compiler.py, lines 43-55. *)
Definition _substr : Rule St :=
  fun t expr =>
    let f := sa.func "substring" in
    '(arg, start, length) ← lift (unpack3 (args (op expr)));
    sa_arg ← translate t arg;
    sa_start ← translate t start;
    match length with
    | PNone => mret (sa.call f [sa_arg; sa.add sa_start 1])
    | _ => sa_length ← translate t length;
           mret (sa.call f [sa_arg; sa.add sa_start 1; sa_length])
    end.

(** compiler.py, lines 58-68. *)
Definition _string_find : Rule St :=
  fun t expr =>
    '(arg, substr, start, _) ← lift (unpack4 (args (op expr)));
    sa_arg ← translate t arg;
    sa_substr ← translate t substr;
    match start with
    | PNone => mret (sa.sub (sa.call (sa.func "charindex") [sa_substr; sa_arg]) 1)
    | _ => sa_start ← translate t start;
           mret (sa.sub (sa.call (sa.func "charindex") [sa_substr; sa_arg; sa_start]) 1)
    end.

(** compiler.py, lines 72-74.  [map] is lazy: unpacking into two names
    translates the arguments one by one, asks for a third to see that
    there is none, and raises [ValueError] on any other length. *)
Definition _floor_divide : Rule St :=
  fun t expr =>
    match args (op expr) with
    | [] => lift unpack_error
    | [a] => _ ← translate t a; lift unpack_error
    | [a; b] =>
        left ← translate t a;
        right ← translate t b;
        mret (sa.call (sa.func "floor") [sa.truediv left right])
    | a :: b :: c :: _ =>
        _ ← translate t a; _ ← translate t b; _ ← translate t c; lift unpack_error
    end.

(** compiler.py, lines 77-87. *)
Definition _extract (fmt : string) : Rule St :=
  fun t expr =>
    arg ← lift (unpack1 (args (op expr)));
    sa_arg ← translate t arg;
    mret (sa.cast (sa.call (sa.func "datepart") [sa.literal_column fmt; sa_arg]) SMALLINT).

(** The dict literal of compiler.py, lines 92-137, in source order. *)
Definition mssql_rules : list (OpKind * Rule St) :=
  [ (ops.Count, _reduction_default (PSaFunc (sa.func "count")));
    (ops.Max, _reduction_default (PStr "max"));
    (ops.Min, _reduction_default (PStr "min"));
    (ops.Sum, _reduction_default (PStr "sum"));
    (ops.Mean, _reduction (PStr "avg") "float64");
    (ops.LStrip, unary (sa.func "ltrim"));
    (ops.Lowercase, unary (sa.func "lower"));
    (ops.RStrip, unary (sa.func "rtrim"));
    (ops.Repeat, fixed_arity (sa.func "replicate") 2);
    (ops.Reverse, unary (sa.func "reverse"));
    (ops.StringFind, _string_find);
    (ops.StringLength, unary (sa.func "length"));
    (ops.StringReplace, fixed_arity (sa.func "replace") 3);
    (ops.Strip, unary (sa.func "trim"));
    (ops.Substring, _substr);
    (ops.Uppercase, unary (sa.func "upper"));
    (ops.Abs, unary (sa.func "abs"));
    (ops.Acos, unary (sa.func "acos"));
    (ops.Asin, unary (sa.func "asin"));
    (ops.Atan2, fixed_arity (sa.func "atn2") 2);
    (ops.Atan, unary (sa.func "atan"));
    (ops.Ceil, unary (sa.func "ceiling"));
    (ops.Cos, unary (sa.func "cos"));
    (ops.Floor, unary (sa.func "floor"));
    (ops.FloorDivide, _floor_divide);
    (ops.Power, fixed_arity (sa.func "power") 2);
    (ops.Sign, unary (sa.func "sign"));
    (ops.Sin, unary (sa.func "sin"));
    (ops.Sqrt, unary (sa.func "sqrt"));
    (ops.Tan, unary (sa.func "tan"));
    (ops.TimestampNow, fixed_arity (sa.func "GETDATE") 0);
    (ops.ExtractYear, _extract "year");
    (ops.ExtractMonth, _extract "month");
    (ops.ExtractDay, _extract "day");
    (ops.ExtractHour, _extract "hour");
    (ops.ExtractMinute, _extract "minute");
    (ops.ExtractSecond, _extract "second");
    (ops.ExtractMillisecond, _extract "millisecond") ].

(** compiler.py, lines 140-173. *)
Definition _unsupported_ops : list OpKind :=
  [ ops.NotContains; ops.NullIf; ops.NotAny;
    ops.Least; ops.Greatest;
    ops.Round; ops.Log2; ops.Ln; ops.Log10; ops.Log; ops.Exp; ops.Modulus;
    ops.Contains; ops.LPad; ops.RPad; ops.Capitalize; ops.RegexSearch;
    ops.RegexExtract; ops.RegexReplace; ops.StringAscii; ops.StringSQLLike;
    ops.CumulativeMax; ops.CumulativeMin; ops.CumulativeMean; ops.CumulativeSum;
    ops.TimestampTruncate ].

(** The registry stores the function itself; the host calls it with the
    translator and the expression only. *)
Definition unsupported_rule : Rule St :=
  fun t expr => raise_unsupported_op_error t expr [].

(** compiler.py, line 176: the dict comprehension, as its items. *)
Definition unsupported_items : list (OpKind * Rule St) :=
  (fun k => (k, unsupported_rule)) <$> _unsupported_ops.
End Rules.

(** ** Python dicts, and the store the module level tables live in *)

Section Dicts.
Context {K V : Type} `{Countable K}.

(** A dict display or comprehension: items are stored in order, so a
    repeated key keeps its last value. *)
Definition dict_literal (items : list (K * V)) : gmap K V :=
  foldl (fun d kv => <[kv.1 := kv.2]> d) ∅ items.

(** The contents of [target] after [target.update(other)]. *)
Definition dict_update (target other : gmap K V) : gmap K V := other ∪ target.

(** The value a list of items gives a key: that of its last occurrence. *)
Fixpoint last_item (k : K) (items : list (K * V)) : option V :=
  match items with
  | [] => None
  | (k', v) :: rest =>
      match last_item k rest with
      | Some v' => Some v'
      | None => if decide (k = k') then Some v else None
      end
  end.
End Dicts.

(** compiler.py, lines 184-194: the items of the [_type_map.update] call. *)
Definition type_map_items : list (TypeClass * ColType) :=
  [ (dt.Boolean, SQL_BIT);
    (dt.Int8, TINYINT);
    (dt.Int32, INTEGER);
    (dt.Int64, BIGINT);
    (dt.Float, REAL);
    (dt.Double, REAL);
    (dt.String, VARCHAR) ].

(** Contents of [MSSQLExprTranslator._type_map], given those of the base
    translator's type map. *)
Definition _type_map (base : gmap TypeClass ColType) : gmap TypeClass ColType :=
  dict_update base (dict_literal type_map_items).

(** Contents of [_operation_registry] once lines 90-177 have run, given
    those of [alch._operation_registry]. *)
Definition _operation_registry {St} `{!AlchemyHost St}
    (base : gmap OpKind (Rule St)) : gmap OpKind (Rule St) :=
  dict_update (dict_update base (dict_literal mssql_rules))
              (dict_literal unsupported_items).

(** Dict objects are shared by reference: a store maps object identities
    to the dicts' current contents. *)
Abbreviation loc := positive (only parsing).

Inductive DictObj (St : Type) : Type :=
| RegistryDict (d : gmap OpKind (Rule St))
| RewritesDict (d : gmap OpKind (Expr -> Expr))
| TypeMapDict (d : gmap TypeClass ColType).
Arguments RegistryDict {St} d.
Arguments RewritesDict {St} d.
Arguments TypeMapDict {St} d.

Abbreviation Store St := (gmap positive (DictObj St)) (only parsing).

(** The class attributes of [MSSQLExprTranslator]: references to dicts.
    [_registry] is the object the module also calls [_operation_registry]. *)
Record MSSQLExprTranslator : Type := {
  _registry : loc;
  _rewrites : loc;
  _type_map_ref : loc;
}.

Section ModuleBody.
Context {St : Type} `{!AlchemyHost St}.

(** [d.copy()]: a new dict object with the same items. *)
Definition dict_copy (l : loc) : M (Store St) loc :=
  fun h =>
    match h !! l with
    | Some o => let l' := fresh (dom h) in (Return l', <[l' := o]> h)
    | None => (Raise (HostError "no such object"), h)
    end.

(** [d.update(other)] on a registry, in place. *)
Definition registry_update (l : loc) (other : gmap OpKind (Rule St)) : M (Store St) unit :=
  fun h =>
    match h !! l with
    | Some (RegistryDict d) => (Return tt, <[l := RegistryDict (dict_update d other)]> h)
    | _ => (Raise (AttributeError "update"), h)
    end.

(** [d.update(other)] on a type map, in place. *)
Definition type_map_update (l : loc) (other : gmap TypeClass ColType) : M (Store St) unit :=
  fun h =>
    match h !! l with
    | Some (TypeMapDict d) => (Return tt, <[l := TypeMapDict (dict_update d other)]> h)
    | _ => (Raise (AttributeError "update"), h)
    end.

(** The module body, lines 90-194, run against the host's three tables
    [alch._operation_registry], [AlchemyExprTranslator._rewrites] and
    [AlchemyExprTranslator._type_map].  Lines 197-206 only bind names
    ([rewrites], [compiles], [MSSQLDialect], [dialect]) and touch no dict. *)
Definition import_compiler (alch_registry alch_rewrites alch_type_map : loc)
    : M (Store St) MSSQLExprTranslator :=
  reg ← dict_copy alch_registry;
  _ ← registry_update reg (dict_literal mssql_rules);
  let _unsupported_ops := dict_literal unsupported_items in
  _ ← registry_update reg _unsupported_ops;
  rewrites ← dict_copy alch_rewrites;
  type_map ← dict_copy alch_type_map;
  _ ← type_map_update type_map (dict_literal type_map_items);
  mret {| _registry := reg; _rewrites := rewrites; _type_map_ref := type_map |}.
End ModuleBody.

(** ** [_find_params] (compiler.py, lines 208-244) *)

(** The names the module binds at top level, in order of appearance. *)
Definition module_globals : list string :=
  [ "pyodbc"; "sa"; "mssql"; "com"; "dt"; "ops"; "alch"; "fixed_arity"; "unary";
    "raise_unsupported_op_error"; "_reduction"; "_substr"; "_string_find";
    "_floor_divide"; "_extract"; "_operation_registry"; "_unsupported_ops";
    "MSSQLExprTranslator"; "rewrites"; "compiles"; "MSSQLDialect"; "dialect";
    "_find_params"; "to_sql" ].

(** Reading a global name that the module never bound raises [NameError]. *)
Definition load_global (name : string) : result unit :=
  if bool_decide (name ∈ module_globals) then Return tt else Raise (NameError name).

Definition isinstance_int (o : PyObj) : bool :=
  match o with PNum (NInt _) | PNum (NBool _) => true | _ => false end.

Definition isinstance_float (o : PyObj) : bool :=
  match o with PNum (NFloat _) => true | _ => false end.

(** [isinstance(arg, ir.Expr)]: the second argument is read from the
    module's globals before the test runs. *)
Definition isinstance_ir_Expr (o : PyObj) : result bool :=
  _ ← load_global "ir";
  mret (match o with PExpr _ => true | _ => false end).

(** [a == b], as far as [seen_params] needs it: on numbers. *)
Definition py_eq (a b : PyObj) : bool :=
  match a, b with
  | PNum x, PNum y => num_eq x y
  | _, _ => false
  end.

Section FindParams.
(** Two methods of the host's nodes: [node.flat_args()] and [==]. *)
Variable flat_args : Node -> list PyObj.
Variable node_eq : Node -> Node -> bool.

(** The [for arg in node.flat_args()] loop, lines 233-239. *)
Fixpoint visit_args (todo : list PyObj) (stack : list Node) (seen_params : list PyObj)
    : result (list Node * list PyObj) :=
  match todo with
  | [] => Return (stack, seen_params)
  | arg :: rest =>
      if isinstance_int arg || isinstance_float arg then
        if existsb (fun x => py_eq x arg) seen_params
        then visit_args rest stack seen_params
        else visit_args rest stack (seen_params ++ [arg])
      else
        is_expr ← isinstance_ir_Expr arg;
        match is_expr, arg with
        | true, PExpr e => visit_args rest (stack ++ [op e]) seen_params
        | _, _ => visit_args rest stack seen_params
        end
  end.

(** The [while stack] loop, lines 227-239; [stack.pop()] takes the last
    element.  [None] means the fuel ran out. *)
Fixpoint find_params_loop (fuel : nat) (stack seen : list Node) (seen_params : list PyObj)
    : option (result (list PyObj)) :=
  match fuel with
  | O => None
  | S fuel =>
      match reverse stack with
      | [] => Some (Return seen_params)
      | node :: below =>
          let stack := reverse below in
          if existsb (fun x => node_eq x node) seen
          then find_params_loop fuel stack seen seen_params
          else
            match visit_args (flat_args node) stack seen_params with
            | Raise e => Some (Raise e)
            | Return (stack, seen_params) =>
                find_params_loop fuel stack (seen ++ [node]) seen_params
            end
      end
  end.

Definition _find_params (fuel : nat) (expr : Expr) : option (result (list PyObj)) :=
  match find_params_loop fuel [op expr] [] [] with
  | None => None
  | Some (Raise e) => Some (Raise e)
  | Some (Return seen_params) => Some (Return (reverse seen_params))
  end.
End FindParams.

(** ** Bind parameters of a clause element *)

(** The values of the bind parameters of an element, left to right. *)
Fixpoint bind_values (e : SaExpr) : list PyObj :=
  match e with
  | SaBindParam v => [v]
  | SaCall _ sa_args => concat (List.map bind_values sa_args)
  | SaBinary _ l r => (bind_values l ++ bind_values r)%list
  | SaCast x _ => bind_values x
  | SaColumn _ | SaLiteralColumn _ | SaNull => []
  end.

(** ** [to_sql] (compiler.py, lines 247-256) *)

Section ToSql.
Context {St Compiled : Type}.
(** The three calls [to_sql] makes are the host's: [expr.compile()], the
    statement's [compile(compile_kwargs={'literal_binds': ...})], which
    may raise as well, and [str]. *)
Variable compile : Expr -> M St SaExpr.
Variable statement_compile : SaExpr -> bool -> M St Compiled.
Variable str : Compiled -> string.

Definition to_sql (expr : Expr) : M St string :=
  compiled ← compile expr;
  rendered ← statement_compile compiled true;
  let q := str rendered in
  mret q.
End ToSql.


(** ** An example host, to run the module on concrete inputs *)

Definition example_cast (e : Expr) (ty : string) : Expr :=
  MkExpr (MkNode "Cast" [PExpr e; PStr ty])
         {| type_class := ty; nullable := nullable (type e) |}.

Definition example_ifelse (w : Expr) (a b : PyObj) : Expr :=
  MkExpr (MkNode "Where" [PExpr w; a; b])
         (match a with PExpr e => type e | _ => dt.boolean end).

Section ExampleRules.
Context {St : Type}.

Fixpoint translate_all (t : Translator St) (l : list PyObj) : M St (list SaExpr) :=
  match l with
  | [] => mret []
  | o :: rest => x ← translate t o; xs ← translate_all t rest; mret (x :: xs)
  end.

Definition example_fixed_arity (f : SaFunction) (arity : nat) : Rule St :=
  fun t expr =>
    if bool_decide (arity = length (args (op expr)))
    then xs ← translate_all t (args (op expr)); mret (sa.call f xs)
    else raise (HostError "incorrect number of args").

Definition example_unary (f : SaFunction) : Rule St := example_fixed_arity f 1.

Definition table_column_rule : Rule St :=
  fun t expr =>
    match args (op expr) with
    | [PStr name] => mret (SaColumn name)
    | _ => raise (HostError "not a column")
    end.

Definition literal_rule : Rule St :=
  fun t expr =>
    match args (op expr) with
    | [v; PType _] => mret (SaBindParam v)
    | _ => raise (HostError "not a literal")
    end.

Definition cast_rule : Rule St :=
  fun t expr =>
    match args (op expr) with
    | [arg; PStr ty] => x ← translate t arg; mret (sa.cast x (HostColType ty))
    | _ => raise (HostError "not a cast")
    end.

Definition where_rule : Rule St :=
  fun t expr =>
    match args (op expr) with
    | [c; a; PNone] =>
        x ← translate t c; y ← translate t a; mret (sa.call (sa.func "iif") [x; y; SaNull])
    | _ => raise (HostError "not a conditional")
    end.
End ExampleRules.

#[global] Instance example_host : AlchemyHost nat := {|
  cast := example_cast;
  ifelse := example_ifelse;
  unary := example_unary;
  fixed_arity := example_fixed_arity;
|}.

(** A base registry that, like the host's, already has a rule for [Round]. *)
Definition example_base : gmap OpKind (Rule nat) :=
  dict_literal
    [ ("TableColumn", table_column_rule);
      ("Literal", literal_rule);
      ("Cast", cast_rule);
      ("Where", where_rule);
      (ops.Round, example_fixed_arity (sa.func "round") 2) ].

(** An example translator: it walks the tree, looks the class of the node
    it is at up in the registry, and calls the rule it finds with itself as
    translator.  Its state counts the calls of [translate]. *)
Fixpoint registry_translate (registry : gmap OpKind (Rule nat)) (fuel : nat)
    (o : PyObj) : M nat SaExpr :=
  fun calls =>
    match fuel with
    | O => (Raise (HostError "maximum recursion depth exceeded"), calls)
    | S fuel =>
        match o with
        | PExpr e =>
            match registry !! type_of (op e) with
            | Some rule =>
                rule {| translate := registry_translate registry fuel |} e (S calls)
            | None => (Raise (HostError "OperationNotDefinedError"), S calls)
            end
        | _ => (Raise (AttributeError "op"), S calls)
        end
    end.

Definition example_translator : Translator nat :=
  {| translate := registry_translate (_operation_registry example_base) 16 |}.

(** A few expressions.  A column is kept by its name (its parent table is
    left out); a literal has its value and its type as arguments. *)
Definition string_type : DataType := {| type_class := dt.String; nullable := true |}.
Definition int_type : DataType := {| type_class := dt.Int64; nullable := true |}.
Definition timestamp_type : DataType := {| type_class := "Timestamp"; nullable := true |}.

Definition column (name : string) (ty : DataType) : Expr :=
  MkExpr (MkNode "TableColumn" [PStr name]) ty.

Definition literal (n : Z) : Expr :=
  MkExpr (MkNode "Literal" [PNum (NInt n); PType int_type]) int_type.

(** A base type map that already maps Double. *)
Definition example_types : gmap TypeClass ColType :=
  dict_literal [("Date", HostColType "DATE"); (dt.Double, HostColType "FLOAT")].

(** The three host tables in a store, at objects 1, 2 and 3. *)
Definition example_store : Store nat :=
  <[3%positive := TypeMapDict example_types]>
    (<[2%positive := RewritesDict ∅]>
      (<[1%positive := RegistryDict example_base]> ∅)).


(** [name.substr(2)] and [name.substr(2, length)]. *)
Definition name_substr (length : PyObj) : Expr :=
  MkExpr (MkNode ops.Substring [PExpr (column "name" string_type); PExpr (literal 2); length])
         string_type.

(** [name.find(needle)] and [name.find(needle, start)]. *)
Definition name_find (start : PyObj) : Expr :=
  MkExpr (MkNode ops.StringFind
            [PExpr (column "name" string_type); PExpr (column "needle" string_type);
             start; PNone]) int_type.

(** [created.hour()] and [price.round(2)]. *)
Definition created_hour : Expr :=
  MkExpr (MkNode ops.ExtractHour [PExpr (column "created" timestamp_type)]) int_type.

Definition price_round : Expr :=
  MkExpr (MkNode ops.Round [PExpr (column "price" int_type); PExpr (literal 2)]) int_type.


(** ** Specification helpers *)

(** The numbers of a list of arguments, each value kept at its first
    occurrence: what [seen_params] holds after a node whose flat arguments
    are all numbers. *)
Definition remember (seen_params : list PyObj) (arg : PyObj) : list PyObj :=
  if existsb (fun x => py_eq x arg) seen_params then seen_params else seen_params ++ [arg].

Definition is_number (o : PyObj) : bool := isinstance_int o || isinstance_float o.

(** [column.count()], [flag.sum()] and [price.max(where=flag)] as the
    reductions receive them. *)
Definition bool_type : DataType := dt.boolean.

Definition reduction_expr (cls : OpKind) (arg : Expr) (where_ : PyObj) : Expr :=
  MkExpr (MkNode cls [PExpr arg; where_]) int_type.

(** A node whose flat arguments are the numbers 1, 2.5, 1.0, True and 3. *)
Definition numbers_expr : Expr :=
  MkExpr (MkNode "ValueList"
            [PNum (NInt 1); PNum (NFloat (5 # 2)); PNum (NFloat (1 # 1));
             PNum (NBool true); PNum (NInt 3)]) int_type.

(** Structural equality of the example nodes, by class name only. *)
Definition example_node_eq (a b : Node) : bool := String.eqb (type_of a) (type_of b).


(** No two entries of a list are equal by value. *)
Definition distinct_by_value (l : list PyObj) : Prop :=
  forall i j a b, l !! i = Some a -> l !! j = Some b -> i <> j -> py_eq a b = false.


(** [price // 2], and a FloorDivide node with the given arguments. *)
Definition floor_divide_expr (operands : list PyObj) : Expr :=
  MkExpr (MkNode ops.FloorDivide operands) int_type.

Definition price_floordiv_2 : Expr :=
  floor_divide_expr [PExpr (column "price" int_type); PExpr (literal 2)].




(** * Theorems *)

(** ** Dict lookups *)

Section DictLemmas.
Context {K V : Type} `{Countable K}.

Lemma lookup_foldl_insert (items : list (K * V)) (d : gmap K V) (k : K) :
  foldl (fun d kv => <[kv.1 := kv.2]> d) d items !! k
  = match last_item k items with Some v => Some v | None => d !! k end.
Proof.
  revert d. induction items as [|[k' v] rest IH]; intros d; simpl; [done|].
  rewrite IH. destruct (last_item k rest) as [v'|]; [done|].
  destruct (decide (k = k')) as [->|Hne].
  - by rewrite lookup_insert_eq.
  - by rewrite lookup_insert_ne.
Qed.

Lemma lookup_dict_literal (items : list (K * V)) (k : K) :
  dict_literal items !! k = last_item k items.
Proof.
  unfold dict_literal. rewrite lookup_foldl_insert, lookup_empty.
  by destruct (last_item k items).
Qed.

Lemma lookup_dict_update (target other : gmap K V) (k : K) :
  dict_update target other !! k
  = match other !! k with Some v => Some v | None => target !! k end.
Proof.
  unfold dict_update. rewrite lookup_union.
  destruct (other !! k), (target !! k); done.
Qed.

Lemma last_item_constant (v : V) (l : list K) (k : K) :
  last_item k ((fun k => (k, v)) <$> l) = if decide (k ∈ l) then Some v else None.
Proof.
  induction l as [|k' l IH].
  - simpl. by destruct (decide (k ∈ [])) as [Hin%not_elem_of_nil|].
  - rewrite fmap_cons. cbn [last_item]. rewrite IH.
    destruct (decide (k ∈ l)) as [Hin|Hnin].
    + rewrite decide_True; [done|by right].
    + destruct (decide (k = k')) as [->|Hne].
      * rewrite decide_True; [done|by left].
      * rewrite decide_False; [done|].
        by intros [?|?]%elem_of_cons.
Qed.

Lemma last_item_elem_of (items : list (K * V)) (k : K) (v : V) :
  last_item k items = Some v -> (k, v) ∈ items.
Proof.
  induction items as [|[k' v'] rest IH]; simpl; [done|].
  destruct (last_item k rest) as [w|].
  - intros [= ->]. right. by apply IH.
  - destruct (decide (k = k')) as [->|]; [|done]. intros [= ->]. by left.
Qed.
End DictLemmas.

(** ** The registry and the rejected operations *)

Section RegistryLemmas.
Context {St : Type} `{!AlchemyHost St}.

(** A lookup in the finished registry tries the rejected operations first,
    then the SQL Server rules, then the host's. *)
Lemma lookup_operation_registry (base : gmap OpKind (Rule St)) (k : OpKind) :
  _operation_registry base !! k
  = match last_item k unsupported_items with
    | Some r => Some r
    | None => match last_item k mssql_rules with
              | Some r => Some r
              | None => base !! k
              end
    end.
Proof.
  unfold _operation_registry.
  by rewrite !lookup_dict_update, !lookup_dict_literal.
Qed.

Lemma lookup_unsupported (base : gmap OpKind (Rule St)) (k : OpKind) :
  k ∈ _unsupported_ops -> _operation_registry base !! k = Some unsupported_rule.
Proof.
  intros Hin. rewrite lookup_operation_registry.
  unfold unsupported_items. rewrite last_item_constant.
  by rewrite decide_True.
Qed.

Lemma format_unsupported_msg (cls : string) :
  format "SQLServer backend doesn't support {} operation!" cls
  = "SQLServer backend doesn't support " ++ cls ++ " operation!".
Proof. reflexivity. Qed.

(** C1: for every operation kind of the unsupported list, the rule the
    finished registry holds for it is the rejection rule, whatever the
    host's registry (and the SQL Server rules) held for that kind; called
    on an expression of that kind, with any further arguments, it raises
    UnsupportedOperationError with a message that names the operation's
    class, returns no SQL fragment, and leaves the host state as it was. *)
Theorem unsupported_operation_rejected
    (base : gmap OpKind (Rule St)) (k : OpKind)
    (t : Translator St) (expr : Expr) (extra : list PyObj) (s : St) :
  k ∈ _unsupported_ops ->
  type_of (op expr) = k ->
  let err := UnsupportedOperationError
               ("SQLServer backend doesn't support " ++ class_str k ++ " operation!") in
  _operation_registry base !! k = Some unsupported_rule /\
  raise_unsupported_op_error t expr extra s = (Raise err, s) /\
  unsupported_rule t expr s = (Raise err, s) /\
  (forall fragment s', unsupported_rule t expr s <> (Return fragment, s')).
Proof.
  intros Hin Hk err. split; [by apply lookup_unsupported|].
  assert (Hraise : forall extra', raise_unsupported_op_error t expr extra' s = (Raise err, s)).
  { intros extra'. unfold raise_unsupported_op_error, raise.
    by rewrite Hk, format_unsupported_msg. }
  split; [apply Hraise|]. split; [apply Hraise|].
  intros fragment s'. unfold unsupported_rule. by rewrite Hraise.
Qed.
End RegistryLemmas.

(** C1 at [Round], which the example host's registry has a rule for. *)
Lemma unsupported_operation_rejected_witness :
  example_base !! ops.Round = Some (example_fixed_arity (sa.func "round") 2) /\
  _operation_registry example_base !! ops.Round = Some unsupported_rule /\
  unsupported_rule example_translator price_round 7
  = (Raise (UnsupportedOperationError
       "SQLServer backend doesn't support <class 'ibis.expr.operations.Round'> operation!"), 7).
Proof.
  split; [reflexivity|].
  pose proof (unsupported_operation_rejected example_base ops.Round example_translator
    price_round [] 7) as Hthm.
  destruct Hthm as (Hreg & _ & Hrule & _).
  - unfold _unsupported_ops. apply list_elem_of_In. vm_compute. tauto.
  - reflexivity.
  - split; [exact Hreg|exact Hrule].
Defined.

(** ** The type map *)

(** C8: whatever the base translator's type map holds, the translator's
    type map sends Boolean, Int8, Int32, Int64, Float, Double and String
    to SQL_BIT, TINYINT, INTEGER, BIGINT, REAL, REAL and VARCHAR; so Float
    and Double get the same column type. *)
Theorem type_map_entries (base : gmap TypeClass ColType) :
  _type_map base !! dt.Boolean = Some SQL_BIT /\
  _type_map base !! dt.Int8 = Some TINYINT /\
  _type_map base !! dt.Int32 = Some INTEGER /\
  _type_map base !! dt.Int64 = Some BIGINT /\
  _type_map base !! dt.Float = Some REAL /\
  _type_map base !! dt.Double = Some REAL /\
  _type_map base !! dt.String = Some VARCHAR /\
  _type_map base !! dt.Float = _type_map base !! dt.Double.
Proof.
  unfold _type_map.
  repeat split; rewrite ?lookup_dict_update, ?lookup_dict_literal; reflexivity.
Qed.

(** ** The rewrite rules *)

(** Running a rule: unfold the binds and use what is known of the
    translator's calls. *)
Ltac unfold_binds :=
  unfold mbind, mret, M_bind, M_ret, lift, raise, unpack1, unpack2, unpack3, unpack4,
         sa.call, sa.add, sa.sub, sa.cast, sa.truediv, sa.literal_column, sa.func;
  cbn beta iota delta [fn_name fst snd].

Ltac run_rule :=
  unfold_binds;
  repeat match goal with
         | H : translate ?t ?o ?s = _ |- context [translate ?t ?o ?s] =>
             rewrite H; unfold_binds
         end.

Section RuleLemmas.
Context {St : Type} `{!AlchemyHost St}.
Implicit Types (t : Translator St) (base : gmap OpKind (Rule St)).

(** C5: the rule registered for Substring is [_substr]; on a Substring
    operation whose argument and start translate to [sa_arg] and
    [sa_start], it returns substring(sa_arg, sa_start + 1) when the length
    is None, and substring(sa_arg, sa_start + 1, sa_length) when a length
    is given and translates to [sa_length]: the zero-based start is turned
    into a one-based one, the length is passed as it is. *)
Theorem substring_one_based base t (expr : Expr) (arg start length : PyObj)
    (sa_arg sa_start : SaExpr) (s0 s1 s2 : St) :
  args (op expr) = [arg; start; length] ->
  translate t arg s0 = (Return sa_arg, s1) ->
  translate t start s1 = (Return sa_start, s2) ->
  _operation_registry base !! ops.Substring = Some _substr /\
  (length = PNone ->
   _substr t expr s0
   = (Return (SaCall "substring"
                [sa_arg; SaBinary "+" sa_start (SaBindParam (PNum (NInt 1)))]), s2)) /\
  (forall (sa_length : SaExpr) (s3 : St),
     length <> PNone ->
     translate t length s2 = (Return sa_length, s3) ->
     _substr t expr s0
     = (Return (SaCall "substring"
                  [sa_arg; SaBinary "+" sa_start (SaBindParam (PNum (NInt 1)));
                   sa_length]), s3)).
Proof.
  intros Hargs Harg Hstart. split; [|split].
  - rewrite lookup_operation_registry. reflexivity.
  - intros ->. unfold _substr. rewrite Hargs. run_rule. reflexivity.
  - intros sa_length s3 Hlen Hlength. unfold _substr. rewrite Hargs. run_rule.
    destruct length; try congruence; run_rule; reflexivity.
Qed.

(** C6: the rule registered for StringFind is [_string_find]; with the
    argument and the substring translated to [sa_arg] and [sa_substr], it
    returns charindex(sa_substr, sa_arg) - 1 when the start is None, and
    charindex(sa_substr, sa_arg, sa_start) - 1 when a start is given and
    translates to [sa_start], which is passed on as it is. *)
Theorem string_find_zero_based base t (expr : Expr) (arg substr start end_ : PyObj)
    (sa_arg sa_substr : SaExpr) (s0 s1 s2 : St) :
  args (op expr) = [arg; substr; start; end_] ->
  translate t arg s0 = (Return sa_arg, s1) ->
  translate t substr s1 = (Return sa_substr, s2) ->
  _operation_registry base !! ops.StringFind = Some _string_find /\
  (start = PNone ->
   _string_find t expr s0
   = (Return (SaBinary "-" (SaCall "charindex" [sa_substr; sa_arg])
                (SaBindParam (PNum (NInt 1)))), s2)) /\
  (forall (sa_start : SaExpr) (s3 : St),
     start <> PNone ->
     translate t start s2 = (Return sa_start, s3) ->
     _string_find t expr s0
     = (Return (SaBinary "-" (SaCall "charindex" [sa_substr; sa_arg; sa_start])
                  (SaBindParam (PNum (NInt 1)))), s3)).
Proof.
  intros Hargs Harg Hsubstr. split; [|split].
  - rewrite lookup_operation_registry. reflexivity.
  - intros ->. unfold _string_find. rewrite Hargs. run_rule. reflexivity.
  - intros sa_start s3 Hne Hstart. unfold _string_find. rewrite Hargs. run_rule.
    destruct start; try congruence; run_rule; reflexivity.
Qed.

(** C7: the seven date-part operations are registered with [_extract] at
    the names year, month, day, hour, minute, second and millisecond; on
    an operation whose one argument translates to [sa_arg], [_extract fmt]
    returns datepart(fmt, sa_arg) cast to SMALLINT, where fmt is a literal
    column (text put into the SQL as it is) and not a bind parameter: the
    fragment has the bind parameters of sa_arg and no other. *)
Theorem extract_datepart base t (expr : Expr) (arg : PyObj) (fmt : string)
    (sa_arg : SaExpr) (s0 s1 : St) :
  args (op expr) = [arg] ->
  translate t arg s0 = (Return sa_arg, s1) ->
  (_operation_registry base !! ops.ExtractYear = Some (_extract "year") /\
   _operation_registry base !! ops.ExtractMonth = Some (_extract "month") /\
   _operation_registry base !! ops.ExtractDay = Some (_extract "day") /\
   _operation_registry base !! ops.ExtractHour = Some (_extract "hour") /\
   _operation_registry base !! ops.ExtractMinute = Some (_extract "minute") /\
   _operation_registry base !! ops.ExtractSecond = Some (_extract "second") /\
   _operation_registry base !! ops.ExtractMillisecond = Some (_extract "millisecond")) /\
  _extract fmt t expr s0
  = (Return (SaCast (SaCall "datepart" [SaLiteralColumn fmt; sa_arg]) SMALLINT), s1) /\
  (forall v, SaLiteralColumn fmt <> SaBindParam v) /\
  bind_values (SaCast (SaCall "datepart" [SaLiteralColumn fmt; sa_arg]) SMALLINT)
  = bind_values sa_arg.
Proof.
  intros Hargs Harg. split; [|split; [|split]].
  - repeat split; rewrite lookup_operation_registry; reflexivity.
  - unfold _extract. rewrite Hargs. run_rule. reflexivity.
  - intros v. discriminate.
  - cbn [bind_values List.map concat]. apply app_nil_r.
Qed.
End RuleLemmas.

(** C5 on [name.substr(2)] and [name.substr(2, 3)] with the example
    translator. *)
Lemma substring_one_based_witness :
  _substr example_translator (name_substr PNone) 0
  = (Return (SaCall "substring"
               [SaColumn "name";
                SaBinary "+" (SaBindParam (PNum (NInt 2))) (SaBindParam (PNum (NInt 1)))]), 2)
  /\
  _substr example_translator (name_substr (PExpr (literal 3))) 0
  = (Return (SaCall "substring"
               [SaColumn "name";
                SaBinary "+" (SaBindParam (PNum (NInt 2))) (SaBindParam (PNum (NInt 1)));
                SaBindParam (PNum (NInt 3))]), 3).
Proof.
  split.
  - refine (proj1 (proj2 (substring_one_based example_base example_translator
              (name_substr PNone) _ _ PNone _ _ 0 1 2 eq_refl _ _)) eq_refl);
      vm_compute; reflexivity.
  - refine (proj2 (proj2 (substring_one_based example_base example_translator
              (name_substr (PExpr (literal 3))) _ _ _ _ _ 0 1 2 eq_refl _ _)) _ 3 _ _);
      [vm_compute; reflexivity | vm_compute; reflexivity | discriminate
      | vm_compute; reflexivity].
Defined.

(** C6 on [name.find(needle)] and [name.find(needle, 4)]. *)
Lemma string_find_zero_based_witness :
  _string_find example_translator (name_find PNone) 0
  = (Return (SaBinary "-" (SaCall "charindex" [SaColumn "needle"; SaColumn "name"])
               (SaBindParam (PNum (NInt 1)))), 2)
  /\
  _string_find example_translator (name_find (PExpr (literal 4))) 0
  = (Return (SaBinary "-"
               (SaCall "charindex"
                  [SaColumn "needle"; SaColumn "name"; SaBindParam (PNum (NInt 4))])
               (SaBindParam (PNum (NInt 1)))), 3).
Proof.
  split.
  - refine (proj1 (proj2 (string_find_zero_based example_base example_translator
              (name_find PNone) _ _ PNone PNone _ _ 0 1 2 eq_refl _ _)) eq_refl);
      vm_compute; reflexivity.
  - refine (proj2 (proj2 (string_find_zero_based example_base example_translator
              (name_find (PExpr (literal 4))) _ _ _ PNone _ _ 0 1 2 eq_refl _ _)) _ 3 _ _);
      [vm_compute; reflexivity | vm_compute; reflexivity | discriminate
      | vm_compute; reflexivity].
Defined.

(** C7 on [created.hour()]. *)
Lemma extract_datepart_witness :
  _operation_registry example_base !! ops.ExtractHour = Some (_extract "hour") /\
  _extract "hour" example_translator created_hour 0
  = (Return (SaCast (SaCall "datepart" [SaLiteralColumn "hour"; SaColumn "created"])
               SMALLINT), 1).
Proof.
  pose proof (extract_datepart example_base example_translator created_hour
    (PExpr (column "created" timestamp_type)) "hour" (SaColumn "created") 0 1 eq_refl)
    as Hthm.
  destruct Hthm as (Hreg & Hrule & _); [vm_compute; reflexivity|].
  split; [apply Hreg | exact Hrule].
Defined.

(** ** The reductions *)

Section ReductionLemmas.
Context {St : Type} `{!AlchemyHost St}.
Implicit Types (t : Translator St) (base : gmap OpKind (Rule St)).

(** What [_reduction] does when it is given the function's name. *)
Lemma reduction_by_name t (name cast_type : string) (cls : OpKind)
    (arg : Expr) (where_ : PyObj) (s : St) :
  _reduction (PStr name) cast_type t (reduction_expr cls arg where_) s
  = let arg' := if dt.equals (type arg) dt.boolean
                then PExpr (cast arg cast_type) else PExpr arg in
    match where_ with
    | PNone =>
        match translate t arg' s with
        | (Return sa_arg, s') => (Return (SaCall name [sa_arg]), s')
        | (Raise e, s') => (Raise e, s')
        end
    | PExpr w =>
        match translate t (PExpr (ifelse w arg' PNone)) s with
        | (Return sa_arg, s') => (Return (SaCall name [sa_arg]), s')
        | (Raise e, s') => (Raise e, s')
        end
    | _ => (Raise (AttributeError "ifelse"), s)
    end.
Proof.
  unfold _reduction, reduction_expr. cbn [op args]. unfold_binds.
  cbn [method_receiver sa.getattr_func].
  destruct where_; cbn [method_receiver]; try reflexivity.
Qed.

(** What [_reduction] does when it is given anything but a name: the
    lookup of the SQL function raises before anything is translated. *)
Lemma reduction_by_object t (f : SaFunction) (cast_type : string) (cls : OpKind)
    (arg : Expr) (where_ : PyObj) (s : St) :
  _reduction (PSaFunc f) cast_type t (reduction_expr cls arg where_) s
  = (Raise (TypeError "getattr(): attribute name must be string"), s).
Proof. reflexivity. Qed.

(** C4: Max, Min, Sum and Mean are registered with [_reduction] at the
    names max, min, sum and avg (cast type int32, float64 for Mean), and
    such a rule casts a boolean argument to the cast type, wraps the
    argument as where.ifelse(arg, None) when a where is given, translates
    it and applies the SQL function of that name.  Count is registered
    with [_reduction] at the function object sa.func.count where a name
    is expected: called on a Count operation it raises TypeError in
    getattr, and applies no SQL function. *)
Theorem reduction_rules base t (arg : Expr) (where_ : PyObj) (s : St) :
  (_operation_registry base !! ops.Max = Some (_reduction (PStr "max") "int32") /\
   _operation_registry base !! ops.Min = Some (_reduction (PStr "min") "int32") /\
   _operation_registry base !! ops.Sum = Some (_reduction (PStr "sum") "int32") /\
   _operation_registry base !! ops.Mean = Some (_reduction (PStr "avg") "float64")) /\
  (forall (name cast_type : string) (cls : OpKind),
     let arg' := if dt.equals (type arg) dt.boolean
                 then PExpr (cast arg cast_type) else PExpr arg in
     let wrapped := match where_ with
                    | PExpr w => PExpr (ifelse w arg' PNone)
                    | _ => arg'
                    end in
     forall (sa_arg : SaExpr) (s' : St),
       where_ = PNone \/ (exists w, where_ = PExpr w) ->
       translate t wrapped s = (Return sa_arg, s') ->
       _reduction (PStr name) cast_type t (reduction_expr cls arg where_) s
       = (Return (SaCall name [sa_arg]), s')) /\
  (exists count_rule : Rule St,
     _operation_registry base !! ops.Count = Some count_rule /\
     count_rule t (reduction_expr ops.Count arg where_) s
     = (Raise (TypeError "getattr(): attribute name must be string"), s)).
Proof.
  split; [|split].
  - repeat split; rewrite lookup_operation_registry; reflexivity.
  - intros name cast_type cls arg' wrapped sa_arg s' Hwhere Htr.
    rewrite reduction_by_name. subst wrapped arg'. cbn zeta.
    destruct Hwhere as [->|[w ->]]; cbn beta iota in Htr; by rewrite Htr.
  - exists (_reduction_default (PSaFunc (sa.func "count"))). split.
    + rewrite lookup_operation_registry. reflexivity.
    + apply reduction_by_object.
Qed.
End ReductionLemmas.

(** [price.max()], [flag.sum(where=flag)] and [price.count()] with the
    example translator. *)
Example reduction_examples :
  _reduction (PStr "max") "int32" example_translator
    (reduction_expr ops.Max (column "price" int_type) PNone) 0
  = (Return (SaCall "max" [SaColumn "price"]), 1)
  /\
  _reduction (PStr "sum") "int32" example_translator
    (reduction_expr ops.Sum (column "flag" bool_type) (PExpr (column "flag" bool_type))) 0
  = (Return (SaCall "sum"
               [SaCall "iif" [SaColumn "flag";
                              SaCast (SaColumn "flag") (HostColType "int32");
                              SaNull]]), 4)
  /\
  translate example_translator
    (PExpr (reduction_expr ops.Count (column "price" int_type) PNone)) 0
  = (Raise (TypeError "getattr(): attribute name must be string"), 1).
Proof. repeat split; vm_compute; reflexivity. Qed.

(** ** [_find_params] *)

Lemma load_global_ir : load_global "ir" = Raise (NameError "ir").
Proof. vm_compute. reflexivity. Qed.

Lemma isinstance_ir_Expr_raises (o : PyObj) :
  isinstance_ir_Expr o = Raise (NameError "ir").
Proof. unfold isinstance_ir_Expr. rewrite load_global_ir. reflexivity. Qed.

Section FindParamsLemmas.
Variable flat_args : Node -> list PyObj.
Variable node_eq : Node -> Node -> bool.

(** Over numbers only, the inner loop records each new value and leaves
    the stack alone. *)
Lemma visit_args_numbers (todo : list PyObj) (stack : list Node) (seen_params : list PyObj) :
  forallb is_number todo = true ->
  visit_args todo stack seen_params = Return (stack, foldl remember seen_params todo).
Proof.
  revert seen_params. induction todo as [|arg rest IH]; intros seen_params Hall.
  - reflexivity.
  - cbn [forallb] in Hall. apply andb_prop in Hall as [Harg Hrest].
    cbn [visit_args foldl]. unfold is_number in Harg. rewrite Harg.
    unfold remember at 2.
    destruct (existsb (fun x => py_eq x arg) seen_params); by apply IH.
Qed.

(** The first argument that is no number stops the loop with NameError:
    the test for a sub-expression reads the name [ir], which the module
    never imports. *)
Lemma visit_args_name_error (todo : list PyObj) (stack : list Node)
    (seen_params : list PyObj) :
  forallb is_number todo = false ->
  visit_args todo stack seen_params = Raise (NameError "ir").
Proof.
  revert seen_params. induction todo as [|arg rest IH]; intros seen_params Hsome.
  - discriminate.
  - cbn [forallb] in Hsome. cbn [visit_args].
    fold (is_number arg). destruct (is_number arg) eqn:Harg.
    + cbn [andb] in Hsome.
      destruct (existsb (fun x => py_eq x arg) seen_params); by apply IH.
    + rewrite isinstance_ir_Expr_raises. reflexivity.
Qed.

(** C3: with fuel for two turns of the outer loop, [_find_params] ends,
    and its outcome is decided by the flat arguments of the root
    operation alone: when all of them are numbers it returns them, each
    value once, in reverse order of first appearance; as soon as one is
    not (a sub-expression, a string, None) it raises NameError for [ir].
    So no sub-expression is ever traversed. *)
Theorem find_params_outcome (fuel : nat) (expr : Expr) :
  _find_params flat_args node_eq (S (S fuel)) expr
  = Some (if forallb is_number (flat_args (op expr))
          then Return (reverse (foldl remember [] (flat_args (op expr))))
          else Raise (NameError "ir"))
  /\
  (forall sub : Expr,
     PExpr sub ∈ flat_args (op expr) ->
     _find_params flat_args node_eq (S (S fuel)) expr = Some (Raise (NameError "ir"))).
Proof.
  assert (Hmain : _find_params flat_args node_eq (S (S fuel)) expr
    = Some (if forallb is_number (flat_args (op expr))
            then Return (reverse (foldl remember [] (flat_args (op expr))))
            else Raise (NameError "ir"))).
  { unfold _find_params. cbn [find_params_loop reverse rev_append existsb].
    change (reverse [op expr]) with [op expr]. cbn iota beta.
    destruct (forallb is_number (flat_args (op expr))) eqn:Hall.
    - rewrite visit_args_numbers by done. reflexivity.
    - rewrite visit_args_name_error by done. reflexivity. }
  split; [exact Hmain|].
  intros sub Hin. rewrite Hmain.
  assert (forallb is_number (flat_args (op expr)) = false) as ->; [|done].
  apply not_true_is_false. intros Hall.
  rewrite forallb_forall in Hall. apply list_elem_of_In in Hin.
  by apply Hall in Hin.
Qed.
End FindParamsLemmas.

(** [name.substr(2)]: the root operation has two sub-expressions and a
    None, and the call raises; so it does on the literal 5, whose flat
    arguments are the value and its type.  A node over numbers only
    returns them. *)
Example find_params_examples :
  _find_params args example_node_eq 100 (name_substr PNone) = Some (Raise (NameError "ir"))
  /\
  _find_params args example_node_eq 100 (literal 5) = Some (Raise (NameError "ir"))
  /\
  _find_params args example_node_eq 100 numbers_expr
  = Some (Return [PNum (NInt 3); PNum (NFloat (5 # 2)); PNum (NInt 1)]).
Proof. repeat split; vm_compute; reflexivity. Qed.

(** ** The module body and the host's tables *)

Section StoreLemmas.
Context {St : Type} `{!AlchemyHost St}.
Implicit Types (h : Store St) (l : loc).

Lemma fresh_not_allocated h : h !! fresh (dom h) = None.
Proof. apply (not_elem_of_dom (D := gset positive)). apply is_fresh. Qed.

Lemma dict_copy_spec h l (o : DictObj St) :
  h !! l = Some o ->
  dict_copy l h = (Return (fresh (dom h)), <[fresh (dom h) := o]> h).
Proof. intros Hl. unfold dict_copy. by rewrite Hl. Qed.

Lemma registry_update_spec h l (d other : gmap OpKind (Rule St)) :
  h !! l = Some (RegistryDict d) ->
  registry_update l other h = (Return tt, <[l := RegistryDict (dict_update d other)]> h).
Proof. intros Hl. unfold registry_update. by rewrite Hl. Qed.

Lemma type_map_update_spec h l (d other : gmap TypeClass ColType) :
  h !! l = Some (TypeMapDict d) ->
  type_map_update l other h = (Return tt, <[l := TypeMapDict (dict_update d other)]> h).
Proof. intros Hl. unfold type_map_update. by rewrite Hl. Qed.

(** The whole run of the module body: three new dict objects, and the
    store otherwise as it was. *)
Lemma import_compiler_spec h (alch_registry alch_rewrites alch_type_map : loc)
    (base : gmap OpKind (Rule St)) (rewrites : DictObj St)
    (types : gmap TypeClass ColType) :
  h !! alch_registry = Some (RegistryDict base) ->
  h !! alch_rewrites = Some rewrites ->
  h !! alch_type_map = Some (TypeMapDict types) ->
  exists (reg rw tm : loc) (h' : Store St),
    import_compiler alch_registry alch_rewrites alch_type_map h
    = (Return {| _registry := reg; _rewrites := rw; _type_map_ref := tm |}, h') /\
    h !! reg = None /\ h !! rw = None /\ h !! tm = None /\
    reg <> rw /\ reg <> tm /\ rw <> tm /\
    h' = <[tm := TypeMapDict (_type_map types)]>
           (<[rw := rewrites]>
              (<[reg := RegistryDict (_operation_registry base)]> h)).
Proof.
  intros Hreg Hrw Htm.
  set (reg := fresh (dom h)).
  set (h1 := <[reg := RegistryDict (_operation_registry base)]> h).
  set (rw := fresh (dom h1)).
  set (h2 := <[rw := rewrites]> h1).
  set (tm := fresh (dom h2)).
  assert (Hreg_new : h !! reg = None) by apply fresh_not_allocated.
  assert (Hrw_new : h1 !! rw = None) by apply fresh_not_allocated.
  assert (Htm_new : h2 !! tm = None) by apply fresh_not_allocated.
  assert (Hne1 : reg <> rw).
  { intros Heq. rewrite <- Heq in Hrw_new. unfold h1 in Hrw_new.
    by rewrite lookup_insert_eq in Hrw_new. }
  assert (Hne2 : rw <> tm).
  { intros Heq. rewrite <- Heq in Htm_new. unfold h2 in Htm_new.
    by rewrite lookup_insert_eq in Htm_new. }
  assert (Hne3 : reg <> tm).
  { intros Heq. rewrite <- Heq in Htm_new. unfold h2, h1 in Htm_new.
    rewrite lookup_insert_ne in Htm_new by (intros Heq'; by apply Hne1).
    by rewrite lookup_insert_eq in Htm_new. }
  exists reg, rw, tm, (<[tm := TypeMapDict (_type_map types)]> h2).
  split; [|repeat split; try done].
  - unfold import_compiler. unfold_binds.
    rewrite (dict_copy_spec h _ _ Hreg). fold reg.
    erewrite registry_update_spec by apply lookup_insert_eq.
    rewrite insert_insert_eq.
    erewrite registry_update_spec by apply lookup_insert_eq.
    rewrite insert_insert_eq.
    change (<[reg := RegistryDict _]> h) with h1.
    assert (Hrw1 : h1 !! alch_rewrites = Some rewrites).
    { unfold h1. rewrite lookup_insert_ne; [done|].
      intros Heq. rewrite <- Heq in Hrw. by rewrite Hreg_new in Hrw. }
    rewrite (dict_copy_spec h1 _ _ Hrw1). fold rw. fold h2.
    assert (Htm1 : h1 !! alch_type_map = Some (TypeMapDict types)).
    { unfold h1. rewrite lookup_insert_ne; [done|].
      intros Heq. rewrite <- Heq in Htm. by rewrite Hreg_new in Htm. }
    assert (Htm2 : h2 !! alch_type_map = Some (TypeMapDict types)).
    { unfold h2. rewrite lookup_insert_ne; [done|].
      intros Heq. rewrite <- Heq in Htm1. by rewrite Hrw_new in Htm1. }
    rewrite (dict_copy_spec h2 _ _ Htm2). fold tm.
    erewrite type_map_update_spec by apply lookup_insert_eq.
    rewrite insert_insert_eq. reflexivity.
  - unfold h1 in Hrw_new. rewrite lookup_insert_ne in Hrw_new; done.
  - unfold h2, h1 in Htm_new. rewrite !lookup_insert_ne in Htm_new; done.
Qed.
End StoreLemmas.

Section ImportTheorem.
Context {St : Type} `{!AlchemyHost St}.

(** C10: run in a store that holds the host's registry, rewrite table and
    type map, the module body ends normally and leaves every object of
    that store as it was, the three host tables among them: the
    translator's registry, rewrites and type map are three objects that
    were not in the store before (copies), and they alone receive the SQL
    Server rules, the rejection rules and the extra type mappings. *)
Theorem import_keeps_host_tables (h : Store St)
    (alch_registry alch_rewrites alch_type_map : loc)
    (base : gmap OpKind (Rule St)) (rewrites : gmap OpKind (Expr -> Expr))
    (types : gmap TypeClass ColType) :
  h !! alch_registry = Some (RegistryDict base) ->
  h !! alch_rewrites = Some (RewritesDict rewrites) ->
  h !! alch_type_map = Some (TypeMapDict types) ->
  exists (cls : MSSQLExprTranslator) (h' : Store St),
    import_compiler alch_registry alch_rewrites alch_type_map h = (Return cls, h') /\
    (forall l o, h !! l = Some o -> h' !! l = Some o) /\
    h' !! alch_registry = Some (RegistryDict base) /\
    h' !! alch_rewrites = Some (RewritesDict rewrites) /\
    h' !! alch_type_map = Some (TypeMapDict types) /\
    h !! _registry cls = None /\
    h !! _rewrites cls = None /\
    h !! _type_map_ref cls = None /\
    h' !! _registry cls = Some (RegistryDict (_operation_registry base)) /\
    h' !! _rewrites cls = Some (RewritesDict rewrites) /\
    h' !! _type_map_ref cls = Some (TypeMapDict (_type_map types)).
Proof.
  intros Hreg Hrw Htm.
  destruct (import_compiler_spec h _ _ _ _ _ _ Hreg Hrw Htm)
    as (reg & rw & tm & h' & Hrun & Hreg_new & Hrw_new & Htm_new & Hne1 & Hne2 & Hne3 & ->).
  exists {| _registry := reg; _rewrites := rw; _type_map_ref := tm |}. eexists.
  split; [exact Hrun|].
  assert (Hframe : forall l o, h !! l = Some o ->
    <[tm := TypeMapDict (_type_map types)]>
      (<[rw := RewritesDict rewrites]>
         (<[reg := RegistryDict (_operation_registry base)]> h)) !! l = Some o).
  { intros l o Hl. rewrite !lookup_insert_ne; [done| | |]; intros <-; congruence. }
  cbn [_registry _rewrites _type_map_ref].
  split; [exact Hframe|].
  repeat split; try done; try by apply Hframe.
  - rewrite !lookup_insert_ne by done. apply lookup_insert_eq.
  - rewrite lookup_insert_ne by done. apply lookup_insert_eq.
  - apply lookup_insert_eq.
Qed.
End ImportTheorem.

(** C10 on the example store: after the import, object 1 still holds the
    host's registry, with its own rule for Round. *)
Lemma import_keeps_host_tables_witness :
  exists (cls : MSSQLExprTranslator) (h' : Store nat),
    import_compiler 1%positive 2%positive 3%positive example_store = (Return cls, h') /\
    (forall l o, example_store !! l = Some o -> h' !! l = Some o) /\
    h' !! 1%positive = Some (RegistryDict example_base) /\
    h' !! 2%positive = Some (RewritesDict ∅) /\
    h' !! 3%positive = Some (TypeMapDict example_types) /\
    example_store !! _registry cls = None /\
    example_store !! _rewrites cls = None /\
    example_store !! _type_map_ref cls = None /\
    h' !! _registry cls = Some (RegistryDict (_operation_registry example_base)) /\
    h' !! _rewrites cls = Some (RewritesDict ∅) /\
    h' !! _type_map_ref cls = Some (TypeMapDict (_type_map example_types)).
Proof.
  apply (import_keeps_host_tables example_store 1%positive 2%positive 3%positive);
    reflexivity.
Defined.

(** The override does not reach the host: its registry keeps its rule for
    Round and its type map keeps FLOAT for Double, while the translator's
    tables reject Round and map Double to REAL. *)
Example override_is_local :
  example_base !! ops.Round = Some (example_fixed_arity (sa.func "round") 2) /\
  _operation_registry example_base !! ops.Round = Some unsupported_rule /\
  example_types !! dt.Double = Some (HostColType "FLOAT") /\
  _type_map example_types !! dt.Double = Some REAL.
Proof. repeat split; vm_compute; reflexivity. Qed.

(** * Further properties of the module *)

(** ** The finished registry as a whole *)

Section DictFacts.
Context {K V : Type} `{Countable K}.

Lemma last_item_None (items : list (K * V)) (k : K) :
  last_item k items = None <-> k ∉ fst <$> items.
Proof.
  induction items as [|[k' v] rest IH]; cbn [last_item fmap list_fmap fst].
  - split; [intros _; apply not_elem_of_nil|done].
  - rewrite not_elem_of_cons, <- IH.
    destruct (last_item k rest) as [w|].
    + split; [done|]. by intros [_ ?].
    + destruct (decide (k = k')) as [->|Hne].
      * split; [done|]. by intros [? _].
      * by split.
Qed.

(** In a list of items without a repeated key, every item is found. *)
Lemma last_item_NoDup (items : list (K * V)) (k : K) (v : V) :
  NoDup (fst <$> items) -> (k, v) ∈ items -> last_item k items = Some v.
Proof.
  induction items as [|[k' v'] rest IH]; cbn [last_item fmap list_fmap fst].
  - intros _ Hin. by apply elem_of_nil in Hin.
  - intros [Hfresh Hrest]%NoDup_cons [[= -> ->]|Hin]%elem_of_cons.
    + apply last_item_None in Hfresh. rewrite Hfresh. by rewrite decide_True.
    + by rewrite (IH Hrest Hin).
Qed.

Lemma dom_dict_literal (items : list (K * V)) :
  dom (dict_literal items) = list_to_set (C := gset K) (fst <$> items).
Proof.
  apply set_eq. intros k. rewrite elem_of_dom, lookup_dict_literal, elem_of_list_to_set.
  destruct (last_item k items) as [v|] eqn:Hk.
  - split; [intros _|by eauto].
    apply last_item_elem_of in Hk. apply list_elem_of_fmap. by exists (k, v).
  - apply last_item_None in Hk. split; [by intros [? [=]]|done].
Qed.

Lemma dom_dict_update (target other : gmap K V) :
  dom (dict_update target other) = dom other ∪ dom target.
Proof. unfold dict_update. apply dom_union_L. Qed.
End DictFacts.

Section RegistryFacts.
Context {St : Type} `{!AlchemyHost St}.
Implicit Types (base : gmap OpKind (Rule St)) (k : OpKind).

(** No kind is listed twice, and none is both given a rule and rejected. *)
Lemma module_kinds_NoDup : NoDup ((fst <$> mssql_rules (St := St)) ++ _unsupported_ops).
Proof. apply (bool_decide_unpack _). vm_compute. reflexivity. Qed.

Lemma unsupported_items_keys : fst <$> unsupported_items (St := St) = _unsupported_ops.
Proof.
  unfold unsupported_items. rewrite <- list_fmap_compose.
  induction _unsupported_ops as [|k l IH]; [done|]. cbn. by rewrite IH.
Qed.

Lemma mssql_kind_not_unsupported k (rule : Rule St) :
  (k, rule) ∈ mssql_rules -> k ∉ _unsupported_ops.
Proof.
  intros Hin. pose proof module_kinds_NoDup as (_ & Hdisjoint & _)%NoDup_app.
  apply Hdisjoint. apply list_elem_of_fmap. by exists (k, rule).
Qed.

(** X1: every rule of the SQL Server dict display is the rule the finished
    registry holds for its kind: no kind occurs twice in the display or in
    the unsupported list, and no kind is in both, so none of the 38 rules
    is replaced by another or by the rejection rule. *)
Theorem mssql_rules_effective base k (rule : Rule St) :
  (k, rule) ∈ mssql_rules ->
  _operation_registry base !! k = Some rule /\
  (k ∉ _unsupported_ops) /\
  NoDup ((fst <$> mssql_rules (St := St)) ++ _unsupported_ops).
Proof.
  intros Hin. pose proof module_kinds_NoDup as (Hkeys & _ & _)%NoDup_app.
  pose proof (mssql_kind_not_unsupported k rule Hin) as Hk.
  split; [|split; [exact Hk|apply module_kinds_NoDup]].
  rewrite lookup_operation_registry.
  unfold unsupported_items. rewrite last_item_constant, decide_False by done.
  by rewrite (last_item_NoDup _ _ _ Hkeys Hin).
Qed.

(** X2: a kind the module names nowhere is looked up as in the host's
    registry: the module neither adds, changes nor drops its rule. *)
Theorem other_kinds_inherited base k :
  k ∉ (fst <$> mssql_rules (St := St)) ->
  k ∉ _unsupported_ops ->
  _operation_registry base !! k = base !! k.
Proof.
  intros Hrules Hunsupported. rewrite lookup_operation_registry.
  unfold unsupported_items. rewrite last_item_constant, decide_False by done.
  apply last_item_None in Hrules. by rewrite Hrules.
Qed.

(** X3: the kinds of the finished registry are those of the host's
    registry, the 38 kinds of the SQL Server rules and the 26 rejected
    kinds; so every kind the host could translate still has an entry. *)
Theorem registry_kinds base :
  dom (_operation_registry base)
  = list_to_set _unsupported_ops ∪ list_to_set (fst <$> mssql_rules (St := St)) ∪ dom base /\
  length (mssql_rules (St := St)) = 38 /\
  length _unsupported_ops = 26 /\
  (forall k, is_Some (base !! k) -> is_Some (_operation_registry base !! k)).
Proof.
  assert (Hdom : dom (_operation_registry base)
    = list_to_set _unsupported_ops ∪ list_to_set (fst <$> mssql_rules (St := St)) ∪ dom base).
  { unfold _operation_registry.
    rewrite !dom_dict_update, !dom_dict_literal, unsupported_items_keys.
    by rewrite (assoc_L (∪)). }
  split; [exact Hdom|]. split; [reflexivity|]. split; [reflexivity|].
  intros k Hk. apply elem_of_dom. rewrite Hdom. apply elem_of_union_r.
  by apply elem_of_dom.
Qed.

(** X4: the two updates of the registry can be swapped, and running them
    again on the finished registry changes nothing: the order of the
    updates only matters against the host's entries. *)
Theorem registry_updates_commute base :
  dict_update (dict_update base (dict_literal unsupported_items)) (dict_literal mssql_rules)
  = _operation_registry base /\
  _operation_registry (_operation_registry base) = _operation_registry base.
Proof.
  split; apply map_eq; intros k.
  - rewrite lookup_operation_registry, !lookup_dict_update, !lookup_dict_literal.
    destruct (last_item k mssql_rules) as [r|] eqn:Hrule; [|done].
    apply last_item_elem_of, mssql_kind_not_unsupported in Hrule.
    unfold unsupported_items. by rewrite last_item_constant, decide_False.
  - rewrite !lookup_operation_registry.
    by destruct (last_item k unsupported_items), (last_item k mssql_rules).
Qed.
End RegistryFacts.

(** X1 at [Floor], one of the rules built by the host's [unary]. *)
Lemma mssql_rules_effective_witness :
  _operation_registry example_base !! ops.Floor = Some (unary (sa.func "floor")) /\
  (ops.Floor ∉ _unsupported_ops).
Proof.
  destruct (mssql_rules_effective example_base ops.Floor (unary (sa.func "floor")))
    as (Hrule & Hnot & _).
  - unfold mssql_rules.
    repeat first [apply list_elem_of_here | apply list_elem_of_further].
  - split; [exact Hrule|exact Hnot].
Defined.

(** X2 at the host's rule for columns. *)
Lemma other_kinds_inherited_witness :
  _operation_registry example_base !! "TableColumn" = Some table_column_rule.
Proof.
  rewrite (other_kinds_inherited example_base "TableColumn").
  - reflexivity.
  - apply (bool_decide_unpack _). vm_compute. reflexivity.
  - apply (bool_decide_unpack _). vm_compute. reflexivity.
Defined.

(** ** The type map as a whole *)

(** X5: a type class that is none of the seven keeps the column type the
    base translator gives it (or stays unmapped); the type classes of the
    translator's map are the base's and the seven; and updating an already
    updated map again changes nothing. *)
Theorem other_types_inherited (base : gmap TypeClass ColType) (k : TypeClass) :
  k ∉ fst <$> type_map_items ->
  _type_map base !! k = base !! k /\
  dom (_type_map base) = list_to_set (fst <$> type_map_items) ∪ dom base /\
  _type_map (_type_map base) = _type_map base.
Proof.
  intros Hk. split; [|split].
  - unfold _type_map. rewrite lookup_dict_update, lookup_dict_literal.
    apply last_item_None in Hk. by rewrite Hk.
  - unfold _type_map. by rewrite dom_dict_update, dom_dict_literal.
  - apply map_eq. intros k'. unfold _type_map.
    rewrite !lookup_dict_update.
    by destruct (dict_literal type_map_items !! k').
Qed.

(** X5 at Date in the example base map, next to Double, which is replaced. *)
Lemma other_types_inherited_witness :
  _type_map example_types !! "Date" = Some (HostColType "DATE") /\
  _type_map example_types !! dt.Double = Some REAL.
Proof.
  split; [|reflexivity].
  destruct (other_types_inherited example_types "Date") as (-> & _).
  - apply (bool_decide_unpack _). vm_compute. reflexivity.
  - reflexivity.
Defined.

(** ** Edge behaviour of the rules *)

Section RuleEdges.
Context {St : Type} `{!AlchemyHost St}.
Implicit Types (t : Translator St) (base : gmap OpKind (Rule St)).

(** X6: [_floor_divide] is the rule registered for FloorDivide.  On two
    arguments that translate it returns floor(left / right), the left one
    translated first.  On no argument it raises ValueError at once; on one
    it raises after translating it; on three or more it raises only after
    translating the first three (the lazy [map] is asked for a third item
    before the unpacking fails).  It returns a fragment on two arguments
    only. *)
Theorem floor_divide_edges base t (expr : Expr) (s0 : St) :
  _operation_registry base !! ops.FloorDivide = Some _floor_divide /\
  (forall a b l r s1 s2,
     args (op expr) = [a; b] ->
     translate t a s0 = (Return l, s1) ->
     translate t b s1 = (Return r, s2) ->
     _floor_divide t expr s0 = (Return (SaCall "floor" [SaBinary "/" l r]), s2)) /\
  (args (op expr) = [] -> _floor_divide t expr s0 = (unpack_error, s0)) /\
  (forall a x s1,
     args (op expr) = [a] ->
     translate t a s0 = (Return x, s1) ->
     _floor_divide t expr s0 = (unpack_error, s1)) /\
  (forall a b c rest x y z s1 s2 s3,
     args (op expr) = a :: b :: c :: rest ->
     translate t a s0 = (Return x, s1) ->
     translate t b s1 = (Return y, s2) ->
     translate t c s2 = (Return z, s3) ->
     _floor_divide t expr s0 = (unpack_error, s3)) /\
  (forall fragment s',
     _floor_divide t expr s0 = (Return fragment, s') ->
     length (args (op expr)) = 2).
Proof.
  split; [rewrite lookup_operation_registry; reflexivity|].
  repeat split.
  - intros a b l r s1 s2 Hargs Ha Hb. unfold _floor_divide. rewrite Hargs.
    run_rule. reflexivity.
  - intros Hargs. unfold _floor_divide. rewrite Hargs. reflexivity.
  - intros a x s1 Hargs Ha. unfold _floor_divide. rewrite Hargs. run_rule. reflexivity.
  - intros a b c rest x y z s1 s2 s3 Hargs Ha Hb Hc.
    unfold _floor_divide. rewrite Hargs. run_rule. reflexivity.
  - intros fragment s'. unfold _floor_divide.
    destruct (args (op expr)) as [|a [|b [|c rest]]]; unfold_binds; try discriminate.
    + destruct (translate t a s0) as [[e|x] s1]; discriminate.
    + done.
    + destruct (translate t a s0) as [[e|x] s1]; [discriminate|].
      destruct (translate t b s1) as [[e|y] s2]; [discriminate|].
      destruct (translate t c s2) as [[e|z] s3]; discriminate.
Qed.

(** X7: the rule registered for Count returns a fragment on no expression
    at all, with no translator: it raises ValueError (arity), AttributeError
    (argument that is no expression) or TypeError (the function object
    given as a name), always before it would call [t.translate], so it
    leaves the host state as it was. *)
Theorem count_rule_never_returns base t (expr : Expr) (s : St) :
  exists (rule : Rule St) (e : exn),
    _operation_registry base !! ops.Count = Some rule /\
    rule t expr s = (Raise e, s) /\
    (e = ValueError "wrong number of values to unpack" \/
     e = AttributeError "type" \/
     e = TypeError "getattr(): attribute name must be string").
Proof.
  exists (_reduction_default (PSaFunc (sa.func "count"))).
  assert (Hrule : _operation_registry base !! ops.Count
                  = Some (_reduction_default (PSaFunc (sa.func "count")))).
  { rewrite lookup_operation_registry. reflexivity. }
  unfold _reduction_default, _reduction.
  destruct (args (op expr)) as [|arg [|where_ [|extra rest]]] eqn:Hargs;
    try (eexists; split; [exact Hrule|split; [reflexivity|by left]]).
  destruct arg as [| | | | |arg];
    try (eexists; split; [exact Hrule|split; [reflexivity|by right; left]]).
  eexists; split; [exact Hrule|split; [reflexivity|by right; right]].
Qed.

End RuleEdges.

(** ** What a returned fragment tells *)

Section RuleInversions.
Context {St : Type} `{!AlchemyHost St}.
Implicit Types (t : Translator St).

(** X9: [_substr] returns a fragment only for an operation of three
    arguments whose argument and start translated, in that order, and,
    when the length is not None, whose length translated after them; the
    fragment is then the substring call with start + 1.  So it never
    returns after a failed translation, and never without the offset. *)
Theorem substr_return_inversion t (expr : Expr) (s0 s' : St) (fragment : SaExpr) :
  _substr t expr s0 = (Return fragment, s') ->
  exists arg start length sa_arg sa_start s1 s2,
    args (op expr) = [arg; start; length] /\
    translate t arg s0 = (Return sa_arg, s1) /\
    translate t start s1 = (Return sa_start, s2) /\
    ((length = PNone /\ s' = s2 /\
      fragment = SaCall "substring"
                   [sa_arg; SaBinary "+" sa_start (SaBindParam (PNum (NInt 1)))]) \/
     (length <> PNone /\
      exists sa_length,
        translate t length s2 = (Return sa_length, s') /\
        fragment = SaCall "substring"
                     [sa_arg; SaBinary "+" sa_start (SaBindParam (PNum (NInt 1)));
                      sa_length])).
Proof.
  unfold _substr.
  destruct (args (op expr)) as [|arg [|start [|length [|extra rest]]]];
    try (unfold_binds; discriminate).
  unfold_binds.
  destruct (translate t arg s0) as [[e|sa_arg] s1] eqn:Harg; [discriminate|].
  destruct (translate t start s1) as [[e|sa_start] s2] eqn:Hstart; [discriminate|].
  intros Hrun. exists arg, start, length, sa_arg, sa_start, s1, s2.
  repeat (split; [reflexivity || assumption|]).
  destruct length as [| | | | |len];
    try (right; split; [discriminate|];
         match type of Hrun with
         | context [translate t ?o s2] =>
             destruct (translate t o s2) as [[e|sa_length] s3] eqn:Hlen; [discriminate|];
             injection Hrun as <- <-; by exists sa_length
         end).
  left. injection Hrun as <- <-. done.
Qed.

(** X10: [_string_find] returns a fragment only for an operation of four
    arguments whose argument and substring translated, in that order, and,
    when the start is not None, whose start translated after them; the
    fragment is then charindex(substring, argument[, start]) - 1, with the
    substring first.  The fourth argument (the end) is never looked at. *)
Theorem string_find_return_inversion t (expr : Expr) (s0 s' : St) (fragment : SaExpr) :
  _string_find t expr s0 = (Return fragment, s') ->
  exists arg substr start end_ sa_arg sa_substr s1 s2,
    args (op expr) = [arg; substr; start; end_] /\
    translate t arg s0 = (Return sa_arg, s1) /\
    translate t substr s1 = (Return sa_substr, s2) /\
    ((start = PNone /\ s' = s2 /\
      fragment = SaBinary "-" (SaCall "charindex" [sa_substr; sa_arg])
                   (SaBindParam (PNum (NInt 1)))) \/
     (start <> PNone /\
      exists sa_start,
        translate t start s2 = (Return sa_start, s') /\
        fragment = SaBinary "-" (SaCall "charindex" [sa_substr; sa_arg; sa_start])
                     (SaBindParam (PNum (NInt 1))))).
Proof.
  unfold _string_find.
  destruct (args (op expr)) as [|arg [|substr [|start [|end_ [|extra rest]]]]];
    try (unfold_binds; discriminate).
  unfold_binds.
  destruct (translate t arg s0) as [[e|sa_arg] s1] eqn:Harg; [discriminate|].
  destruct (translate t substr s1) as [[e|sa_substr] s2] eqn:Hsubstr; [discriminate|].
  intros Hrun. exists arg, substr, start, end_, sa_arg, sa_substr, s1, s2.
  repeat (split; [reflexivity || assumption|]).
  destruct start as [| | | | |st];
    try (right; split; [discriminate|];
         match type of Hrun with
         | context [translate t ?o s2] =>
             destruct (translate t o s2) as [[e|sa_start] s3] eqn:Hst; [discriminate|];
             injection Hrun as <- <-; by exists sa_start
         end).
  left. injection Hrun as <- <-. done.
Qed.


End RuleInversions.

(** X6 on [price // 2] and on FloorDivide nodes with one and three
    operands: the count of translator calls shows what was translated
    before the error. *)
Lemma floor_divide_edges_witness :
  _floor_divide example_translator price_floordiv_2 0
  = (Return (SaCall "floor"
               [SaBinary "/" (SaColumn "price") (SaBindParam (PNum (NInt 2)))]), 2)
  /\
  _floor_divide example_translator (floor_divide_expr [PExpr (literal 1)]) 0
  = (unpack_error, 1)
  /\
  _floor_divide example_translator
    (floor_divide_expr [PExpr (literal 1); PExpr (literal 2); PExpr (literal 3);
                        PExpr (literal 4)]) 0
  = (unpack_error, 3).
Proof.
  split; [|split].
  - refine (proj1 (proj2 (floor_divide_edges example_base example_translator
              price_floordiv_2 0)) _ _ _ _ 1 2 eq_refl _ _); vm_compute; reflexivity.
  - refine (proj1 (proj2 (proj2 (proj2 (floor_divide_edges example_base example_translator
              (floor_divide_expr [PExpr (literal 1)]) 0)))) _ _ 1 eq_refl _);
      vm_compute; reflexivity.
  - refine (proj1 (proj2 (proj2 (proj2 (proj2 (floor_divide_edges example_base
              example_translator
              (floor_divide_expr [PExpr (literal 1); PExpr (literal 2); PExpr (literal 3);
                                  PExpr (literal 4)]) 0)))))
              _ _ _ _ _ _ _ 1 2 3 eq_refl _ _ _); vm_compute; reflexivity.
Defined.


(** X9 on [name.substr(2, 3)]: from the returned fragment back to the
    three translations. *)
Lemma substr_return_inversion_witness :
  exists arg start length sa_arg sa_start s1 s2,
    args (op (name_substr (PExpr (literal 3)))) = [arg; start; length] /\
    translate example_translator arg 0 = (Return sa_arg, s1) /\
    translate example_translator start s1 = (Return sa_start, s2) /\
    ((length = PNone /\ 3 = s2 /\
      SaCall "substring"
        [SaColumn "name";
         SaBinary "+" (SaBindParam (PNum (NInt 2))) (SaBindParam (PNum (NInt 1)));
         SaBindParam (PNum (NInt 3))]
      = SaCall "substring"
          [sa_arg; SaBinary "+" sa_start (SaBindParam (PNum (NInt 1)))]) \/
     (length <> PNone /\
      exists sa_length,
        translate example_translator length s2 = (Return sa_length, 3) /\
        SaCall "substring"
          [SaColumn "name";
           SaBinary "+" (SaBindParam (PNum (NInt 2))) (SaBindParam (PNum (NInt 1)));
           SaBindParam (PNum (NInt 3))]
        = SaCall "substring"
            [sa_arg; SaBinary "+" sa_start (SaBindParam (PNum (NInt 1))); sa_length])).
Proof.
  apply (substr_return_inversion example_translator (name_substr (PExpr (literal 3))) 0 3).
  vm_compute. reflexivity.
Defined.

(** X10 on [name.find(needle)]. *)
Lemma string_find_return_inversion_witness :
  exists arg substr start end_ sa_arg sa_substr s1 s2,
    args (op (name_find PNone)) = [arg; substr; start; end_] /\
    translate example_translator arg 0 = (Return sa_arg, s1) /\
    translate example_translator substr s1 = (Return sa_substr, s2) /\
    ((start = PNone /\ 2 = s2 /\
      SaBinary "-" (SaCall "charindex" [SaColumn "needle"; SaColumn "name"])
        (SaBindParam (PNum (NInt 1)))
      = SaBinary "-" (SaCall "charindex" [sa_substr; sa_arg])
          (SaBindParam (PNum (NInt 1)))) \/
     (start <> PNone /\
      exists sa_start,
        translate example_translator start s2 = (Return sa_start, 2) /\
        SaBinary "-" (SaCall "charindex" [SaColumn "needle"; SaColumn "name"])
          (SaBindParam (PNum (NInt 1)))
        = SaBinary "-" (SaCall "charindex" [sa_substr; sa_arg; sa_start])
            (SaBindParam (PNum (NInt 1))))).
Proof.
  apply (string_find_return_inversion example_translator (name_find PNone) 0 2).
  vm_compute. reflexivity.
Defined.


(** ** What [_find_params] returns, when it returns *)

Lemma py_eq_comm (a b : PyObj) : py_eq a b = py_eq b a.
Proof. destruct a, b; try reflexivity. apply Qeq_bool_comm. Qed.

Lemma string_length_app (s1 s2 : string) :
  String.length (s1 ++ s2) = (String.length s1 + String.length s2)%nat.
Proof. induction s1 as [|c s1 IH]; simpl; [done|by f_equal]. Qed.

Lemma string_app_inv_tail (s1 s2 t : string) : s1 ++ t = s2 ++ t -> s1 = s2.
Proof.
  revert s2. induction s1 as [|c s1 IH]; intros [|c' s2] Heq.
  - done.
  - apply (f_equal String.length) in Heq. rewrite !string_length_app in Heq. simpl in Heq. lia.
  - apply (f_equal String.length) in Heq. rewrite !string_length_app in Heq. simpl in Heq. lia.
  - simpl in Heq. injection Heq as -> Heq. by rewrite (IH _ Heq).
Qed.

Section FindParamsInvariants.
Variable flat_args : Node -> list PyObj.
Variable node_eq : Node -> Node -> bool.

(** A returned list is that of the root's flat arguments, all numbers. *)
Lemma find_params_returns (fuel : nat) (expr : Expr) (l : list PyObj) :
  _find_params flat_args node_eq fuel expr = Some (Return l) ->
  forallb is_number (flat_args (op expr)) = true /\
  l = reverse (foldl remember [] (flat_args (op expr))).
Proof.
  unfold _find_params. destruct fuel as [|[|fuel]]; [discriminate| |];
    cbn [find_params_loop existsb];
    change (reverse [op expr]) with [op expr]; cbn iota beta;
    destruct (forallb is_number (flat_args (op expr))) eqn:Hall;
    rewrite ?visit_args_numbers, ?visit_args_name_error by done;
    try discriminate.
  cbn [find_params_loop]. change (reverse (@nil Node)) with (@nil Node). cbn iota.
  intros [= <-]. done.
Qed.

Lemma remember_prefix (todo acc : list PyObj) :
  exists suffix, foldl remember acc todo = (acc ++ suffix)%list /\
                 forall x, x ∈ suffix -> x ∈ todo.
Proof.
  revert acc. induction todo as [|arg rest IH]; intros acc; cbn [foldl].
  - exists []. split; [by rewrite app_nil_r|]. by intros x Hx%elem_of_nil.
  - unfold remember at 2.
    destruct (existsb (fun x => py_eq x arg) acc).
    + destruct (IH acc) as (suffix & -> & Hsub). exists suffix.
      split; [done|]. intros x Hx. right. by apply Hsub.
    + destruct (IH (acc ++ [arg])%list) as (suffix & -> & Hsub). exists (arg :: suffix).
      split; [by rewrite <- app_assoc|].
      intros x [->|Hx]%elem_of_cons; [by left|right; by apply Hsub].
Qed.

(** An argument that equals itself is equal to an entry from its turn on. *)
Lemma remember_covers (todo acc : list PyObj) (a : PyObj) :
  a ∈ todo -> py_eq a a = true ->
  exists x, x ∈ foldl remember acc todo /\ py_eq x a = true.
Proof.
  revert acc. induction todo as [|arg rest IH]; intros acc Hin Hnum.
  - by apply elem_of_nil in Hin.
  - cbn [foldl]. apply elem_of_cons in Hin as [->|Hin]; [|by apply IH].
    destruct (remember_prefix rest (remember acc arg)) as (suffix & -> & _).
    unfold remember.
    destruct (existsb (fun x => py_eq x arg) acc) eqn:Hseen.
    + apply existsb_exists in Hseen as (x & Hx%list_elem_of_In & Heq).
      exists x. split; [|done]. apply elem_of_app. by left.
    + exists arg. split; [|done].
      rewrite !elem_of_app. left. right. by left.
Qed.

Lemma distinct_snoc (acc : list PyObj) (arg : PyObj) :
  distinct_by_value acc ->
  existsb (fun x => py_eq x arg) acc = false ->
  distinct_by_value (acc ++ [arg]).
Proof.
  intros Hacc Hnew i j a b Hi Hj Hne.
  assert (Hfresh : forall x, x ∈ acc -> py_eq x arg = false).
  { intros x Hx. destruct (py_eq x arg) eqn:Heq; [|done].
    rewrite <- Hnew. symmetry. apply existsb_exists. exists x.
    split; [by apply list_elem_of_In|done]. }
  apply lookup_snoc_Some in Hi as [[Hi_lt Hi]|[Hi_eq <-]];
    apply lookup_snoc_Some in Hj as [[Hj_lt Hj]|[Hj_eq <-]].
  - by apply (Hacc i j).
  - apply Hfresh. by apply list_elem_of_lookup_2 in Hi.
  - rewrite py_eq_comm. apply Hfresh. by apply list_elem_of_lookup_2 in Hj.
  - congruence.
Qed.

Lemma remember_distinct (todo acc : list PyObj) :
  distinct_by_value acc -> distinct_by_value (foldl remember acc todo).
Proof.
  revert acc. induction todo as [|arg rest IH]; intros acc Hacc; [done|].
  cbn [foldl]. apply IH. unfold remember.
  destruct (existsb (fun x => py_eq x arg) acc) eqn:Hseen; [done|].
  by apply distinct_snoc.
Qed.

Lemma distinct_reverse (l : list PyObj) :
  distinct_by_value l -> distinct_by_value (reverse l).
Proof.
  intros Hl i j a b [Hi Hi_lt]%reverse_lookup_Some [Hj Hj_lt]%reverse_lookup_Some Hne.
  apply (Hl _ _ _ _ Hi Hj). lia.
Qed.

(** X12: whenever [_find_params] returns a list, every entry is a number
    that is a flat argument of the root operation; every flat argument
    that equals itself (any number but a NaN, which is equal to nothing)
    is equal by value to some entry; no two entries are equal by value (so
    1, 1.0 and True count as one parameter, kept as it first appeared);
    and the entries stand in reverse order of first appearance. *)
Theorem find_params_result_invariants (fuel : nat) (expr : Expr) (l : list PyObj) :
  _find_params flat_args node_eq fuel expr = Some (Return l) ->
  (forall x, x ∈ l -> is_number x = true /\ x ∈ flat_args (op expr)) /\
  (forall a, a ∈ flat_args (op expr) -> py_eq a a = true ->
             exists x, x ∈ l /\ py_eq x a = true) /\
  distinct_by_value l /\
  l = reverse (foldl remember [] (flat_args (op expr))).
Proof.
  intros [Hall ->]%find_params_returns.
  rewrite forallb_forall in Hall.
  split; [|split; [|split; [|done]]].
  - intros x Hx. rewrite elem_of_reverse in Hx.
    destruct (remember_prefix (flat_args (op expr)) []) as (suffix & Heq & Hsub).
    rewrite Heq, app_nil_l in Hx. apply Hsub in Hx.
    split; [|done]. apply Hall. by apply list_elem_of_In.
  - intros a Ha Hself.
    destruct (remember_covers (flat_args (op expr)) [] a Ha Hself) as (x & Hx & Heq).
    exists x. split; [by rewrite elem_of_reverse|done].
  - apply distinct_reverse, remember_distinct.
    intros i j a b Hi. by rewrite lookup_nil in Hi.
Qed.
End FindParamsInvariants.

(** X12 on the node over 1, 2.5, 1.0, True and 3. *)
Lemma find_params_result_invariants_witness :
  _find_params args example_node_eq 100 numbers_expr
  = Some (Return [PNum (NInt 3); PNum (NFloat (5 # 2)); PNum (NInt 1)]) /\
  distinct_by_value [PNum (NInt 3); PNum (NFloat (5 # 2)); PNum (NInt 1)] /\
  (exists x, x ∈ [PNum (NInt 3); PNum (NFloat (5 # 2)); PNum (NInt 1)] /\
             py_eq x (PNum (NBool true)) = true).
Proof.
  assert (Hrun : _find_params args example_node_eq 100 numbers_expr
    = Some (Return [PNum (NInt 3); PNum (NFloat (5 # 2)); PNum (NInt 1)])).
  { vm_compute. reflexivity. }
  destruct (find_params_result_invariants args example_node_eq 100 numbers_expr _ Hrun)
    as (_ & Hcovers & Hdistinct & _).
  split; [exact Hrun|split; [exact Hdistinct|]].
  apply Hcovers; [|reflexivity]. unfold numbers_expr. cbn [op args].
  repeat first [apply list_elem_of_here | apply list_elem_of_further].
Defined.

(** ** The rejection message *)

Section MessageFacts.
Context {St : Type} `{!AlchemyHost St}.

(** X13: the exception of the rejection rule tells the operation kind and
    nothing else: two rejections raise the same exception exactly when the
    two operations are of the same kind, whatever the translators, the
    further arguments and the host states. *)
Theorem unsupported_message_identifies_kind (t1 t2 : Translator St) (e1 e2 : Expr)
    (extra1 extra2 : list PyObj) (s1 s2 : St) :
  (raise_unsupported_op_error t1 e1 extra1 s1).1
  = (raise_unsupported_op_error t2 e2 extra2 s2).1
  <-> type_of (op e1) = type_of (op e2).
Proof.
  unfold raise_unsupported_op_error, raise. cbn [fst].
  rewrite !format_unsupported_msg. split.
  - intros [= Heq]. apply string_app_inv_tail in Heq.
    apply (inj (String.app _)) in Heq. by apply string_app_inv_tail in Heq.
  - by intros ->.
Qed.
End MessageFacts.

(** ** The tables after the import *)

Section StoreFacts.
Context {St : Type} `{!AlchemyHost St}.

(** X14: the translator's registry, rewrites and type map are three
    different objects, none of them one of the host's; so a rule registered
    later in the translator's registry, in place, reaches neither the
    host's registry nor any other object of the earlier store, nor the
    translator's rewrites and type map. *)
Theorem later_registration_stays_local (h : Store St)
    (alch_registry alch_rewrites alch_type_map : loc)
    (base : gmap OpKind (Rule St)) (rewrites : gmap OpKind (Expr -> Expr))
    (types : gmap TypeClass ColType) (other : gmap OpKind (Rule St)) :
  h !! alch_registry = Some (RegistryDict base) ->
  h !! alch_rewrites = Some (RewritesDict rewrites) ->
  h !! alch_type_map = Some (TypeMapDict types) ->
  exists (cls : MSSQLExprTranslator) (h' h'' : Store St),
    import_compiler alch_registry alch_rewrites alch_type_map h = (Return cls, h') /\
    registry_update (_registry cls) other h' = (Return tt, h'') /\
    _registry cls <> _rewrites cls /\
    _registry cls <> _type_map_ref cls /\
    _rewrites cls <> _type_map_ref cls /\
    (forall l o, h !! l = Some o -> h'' !! l = Some o) /\
    h'' !! _registry cls
    = Some (RegistryDict (dict_update (_operation_registry base) other)) /\
    h'' !! _rewrites cls = Some (RewritesDict rewrites) /\
    h'' !! _type_map_ref cls = Some (TypeMapDict (_type_map types)).
Proof.
  intros Hreg Hrw Htm.
  destruct (import_compiler_spec h _ _ _ _ _ _ Hreg Hrw Htm)
    as (reg & rw & tm & h' & Hrun & Hreg_new & Hrw_new & Htm_new & Hne1 & Hne2 & Hne3 & ->).
  exists {| _registry := reg; _rewrites := rw; _type_map_ref := tm |}.
  eexists. eexists. split; [exact Hrun|]. cbn [_registry _rewrites _type_map_ref].
  split.
  { apply registry_update_spec.
    rewrite !lookup_insert_ne by done. apply lookup_insert_eq. }
  repeat split; try done.
  - intros l o Hl. rewrite !lookup_insert_ne; [done| | | |]; intros <-; congruence.
  - apply lookup_insert_eq.
  - rewrite !lookup_insert_ne by done. apply lookup_insert_eq.
  - rewrite lookup_insert_ne by done. apply lookup_insert_eq.
Qed.
End StoreFacts.

(** X14 on the example store, registering a rule for Round again. *)
Lemma later_registration_stays_local_witness :
  exists (cls : MSSQLExprTranslator) (h' h'' : Store nat),
    import_compiler 1%positive 2%positive 3%positive example_store = (Return cls, h') /\
    registry_update (_registry cls) {[ ops.Round := literal_rule ]} h' = (Return tt, h'') /\
    h'' !! 1%positive = Some (RegistryDict example_base) /\
    h'' !! _registry cls
    = Some (RegistryDict (dict_update (_operation_registry example_base)
                            {[ ops.Round := literal_rule ]})).
Proof.
  destruct (later_registration_stays_local example_store 1%positive 2%positive 3%positive
              example_base ∅ example_types {[ ops.Round := literal_rule ]})
    as (cls & h' & h'' & Hrun & Hupdate & _ & _ & _ & Hframe & Hregistry & _);
    [reflexivity..|].
  exists cls, h', h''. repeat split; [exact Hrun|exact Hupdate| |exact Hregistry].
  by apply Hframe.
Defined.

(** ** Exceptions of the translator *)

Section Propagation.
Context {St : Type} `{!AlchemyHost St}.
Implicit Types (t : Translator St).

End Propagation.

